(** * Model creation pipeline of the server ([server/create.go])

    A shallow embedding of the creation handler, the GGUF layering step, the
    layer-set composer and the config layer builder, followed by the
    properties the specification states about them.

    Conventions.
    - A Go function returning [(T, error)] is a computation [M T]: it threads
      the store and the log of observable effects, and ends by returning a
      value, by returning a non-nil error, or by not returning at all (the
      byte-range loop of [ggufLayers] has no bound, so it runs on fuel).
    - Code of the repository that lives outside [create.go] (blob store,
      layer constructors, manifest writer, codecs, format decoder) is taken
      as the fields of the class [Externals]; every theorem holds for every
      implementation of it.  [Mem] at the end of the definitions is one
      such implementation, used to run the code on concrete requests.
    - A Go map that is only ranged over is the list of its entries in the
      order the range statement visits them; the parameter maps, which are
      looked up and updated by key, are [gmap]s. *)

From stdpp Require Import base option list strings gmap fin_maps.
From Stdlib Require Import ZArith Ascii String.

Local Open Scope Z_scope.
Local Open Scope string_scope.
Local Open Scope list_scope.

(** ** Errors *)

(** The package-level error values ([errors.New] at package scope), compared
    by identity through [errors.Is]. *)
Inductive sentinel : Type :=
  | NoFilesProvided
  | OnlyOneAdapterSupported
  | OnlyGGUFSupported
  | UnknownType
  | NeitherFromOrFiles
  | BadTemplate.

(** An error value: a sentinel, a sentinel wrapped with [%w], or any other
    error (created at the call site or returned by the runtime), which no
    [errors.Is] of this file matches. *)
Inductive error : Type :=
  | Sentinel (s : sentinel)
  | Wrapped (s : sentinel) (detail : string)
  | Opaque (msg : string).

#[global] Instance sentinel_eq_dec : EqDecision sentinel.
Proof. solve_decision. Defined.

#[global] Instance error_eq_dec : EqDecision error.
Proof. solve_decision. Defined.

Definition errNoFilesProvided : error := Sentinel NoFilesProvided.
Definition errOnlyOneAdapterSupported : error := Sentinel OnlyOneAdapterSupported.
Definition errOnlyGGUFSupported : error := Sentinel OnlyGGUFSupported.
Definition errUnknownType : error := Sentinel UnknownType.
Definition errNeitherFromOrFiles : error := Sentinel NeitherFromOrFiles.

(** The errors created inside functions of [create.go]. *)
Definition errNoBaseModel : error := Opaque "no base model was found".
Definition errQuantizeSource : error :=
  Opaque "quantization is only supported for F16 and F32 models".

Definition errors_Is (e : error) (target : sentinel) : bool :=
  match e with
  | Sentinel s | Wrapped s _ => bool_decide (s = target)
  | Opaque _ => false
  end.

(** The result of a call that cannot diverge. *)
Inductive result (A : Type) : Type :=
  | Ok (a : A)
  | Err (e : error).
Arguments Ok {A} a.
Arguments Err {A} e.

(** How a call of the pipeline ends: it returns a value, it returns an
    error, or it is still running when its fuel is used up. *)
Inductive outcome (A : Type) : Type :=
  | Return (a : A)
  | Raise (e : error)
  | Diverge.
Arguments Return {A} a.
Arguments Raise {A} e.
Arguments Diverge {A}.

(** ** Data *)

Definition StatusBadRequest : Z := 400.

Definition mtModel : string := "application/vnd.ollama.image.model".
Definition mtTemplate : string := "application/vnd.ollama.image.template".
Definition mtSystem : string := "application/vnd.ollama.image.system".
Definition mtLicense : string := "application/vnd.ollama.image.license".
Definition mtParams : string := "application/vnd.ollama.image.params".
Definition mtMessages : string := "application/vnd.ollama.image.messages".
Definition mtConfig : string := "application/vnd.docker.container.image.v1+json".

Record Layer : Type := mkLayer {
  MediaType : string;
  Digest : string;
  Size : Z;
  status : string
}.

(** The zero value of [var layer Layer]. *)
Definition zeroLayer : Layer := mkLayer "" "" 0 "".

#[global] Instance Layer_eq_dec : EqDecision Layer.
Proof. solve_decision. Defined.

(** The decoded metadata attached to a layer: what [create.go] reads of a
    [*GGML] value through [Name()] and [KV()]. *)
Record KV : Type := mkKV {
  Architecture : string;
  ParameterCount : Z;
  FileType : string          (* [FileType().String()] *)
}.

Record GGML : Type := mkGGML {
  GGML_Name : string;
  GGML_KV : KV
}.

(** [layerGGML] embeds a [Layer] and a [*GGML] that may be nil. *)
Record layerGGML : Type := mkLayerGGML {
  lLayer : Layer;
  lGGML : option GGML
}.

Record RootFS : Type := mkRootFS {
  RootFS_Type : string;
  DiffIDs : list string
}.

Record ConfigV2 : Type := mkConfigV2 {
  ModelFormat : string;
  ModelFamily : string;
  ModelFamilies : list string;
  ModelType : string;
  CfgFileType : string;
  CfgArchitecture : string;
  OS : string;
  CfgRootFS : RootFS
}.

Record Message : Type := mkMessage {
  Role : string;
  Content : string
}.

(** What is sent on the handler's channel: a progress response, or a
    [gin.H] with an ["error"] and possibly a ["status"]. *)
Inductive ChanMsg : Type :=
  | Progress (st : string)
  | ErrorMsg (msg : string) (code : option Z).

#[global] Instance ChanMsg_eq_dec : EqDecision ChanMsg.
Proof. solve_decision. Defined.

(** [cmp.Or] on two strings: the first that is not the zero value. *)
Definition cmp_Or (a b : string) : string :=
  if decide (a = "") then b else a.

Definition HasSuffix (s suffix : string) : bool :=
  let n := String.length s in
  let m := String.length suffix in
  (m <=? n)%nat && bool_decide (substring (n - m) m s = suffix).

(** [strings.ToUpper] on the ASCII letters; the code only tests its result
    against the empty string. *)
Definition upper_ascii (c : ascii) : ascii :=
  let n := nat_of_ascii c in
  if (97 <=? n)%nat && (n <=? 122)%nat then ascii_of_nat (n - 32) else c.

Fixpoint ToUpper (s : string) : string :=
  match s with
  | EmptyString => EmptyString
  | String c s' => String (upper_ascii c) (ToUpper s')
  end.

(** ** The rest of the repository, as an interface *)

(** What [create.go] calls and does not define.  [World] is everything that
    outlives a call: the blob store, the manifests, the environment.  An
    operation that can fail returns a [result]; one that returns only an
    [error] returns an [option error] ([None] for nil). *)
Class Externals : Type := {
  World : Type;
  any : Type;                       (* a decoded JSON value *)
  Name : Type;                      (* [model.Name] *)
  File : Type;                      (* [*os.File] *)
  Manifest : Type;                  (* [*Manifest] *)
  (* names *)
  ParseName : string → Name;
  IsValid : Name → bool;
  getExistingName : Name → World → result Name;
  InvalidModelNameErrMsg : string;
  errBadTemplateMsg : string;       (* the text of [errBadTemplate] *)
  (* manifests *)
  ParseNamedManifest : Name → World → option Manifest;
  RemoveLayers : Manifest → World → World * option error;
  WriteManifest : Name → Layer → list Layer → World → World * option error;
  NoPrune : World → bool;
  (** [parseFromModel]: the statuses it reports, and its layers or error. *)
  parseFromModel : Name → World → World * list string * result (list layerGGML);
  (* files and blobs *)
  GetBlobsPath : string → result string;
  os_Open : string → World → result File;
  File_Name : File → string;
  File_Stat_Size : File → World → result Z;
  File_Read : File → nat → World → result string;       (* [f.Read(buf)] *)
  File_Section : File → Z → Z → World → string;         (* [io.NewSectionReader] *)
  File_Contents : File → World → string;                (* the file read from its start *)
  (* layers *)
  NewLayer : string → string → World → World * result Layer;
  NewLayerFromLayer : string → string → string → World → World * result Layer;
  Layer_Remove : Layer → World → World * option error;
  (* format decoder *)
  DetectGGMLType : string → string;
  detectContentType : string → result string;
  detectChatTemplate : list layerGGML → World → World * result (list layerGGML);
  HumanNumber : Z → string;
  (* template validator *)
  template_Parse : string → option error;
  (* JSON *)
  json_decode_params : string → result (gmap string any);
  json_encode_params : gmap string any → result string;
  json_encode_messages : list Message → result string;
  json_encode_config : ConfigV2 → result string;
  json_strings : any → result (list string)   (* marshal, then unmarshal into [[]string] *)
}.

Section Create.
Context `{Ext : Externals}.

(** The dynamic [License] field, once it is known not to be nil. *)
Inductive LicenseValue : Type :=
  | LicenseString (l : string)
  | LicenseAny (l : any).

Record CreateRequest : Type := mkCreateRequest {
  ReqModel : string;
  ReqName : string;
  Stream : option bool;
  Quantize : string;
  Quantization : string;
  From : string;
  Files : option (list (string * string));
  Adapters : option (list (string * string));
  Template : string;
  License : option LicenseValue;
  System : string;
  Parameters : option (gmap string any);
  Messages : list Message
}.

(** ** Effects *)

(** The observable steps of a run, in the order they happen. *)
Inductive Effect : Type :=
  | Sent (m : ChanMsg)                                   (* [ch <- m] *)
  | Created (content mediatype : string) (l : Layer)     (* [NewLayer] returned [l] *)
  | Linked (digest mediatype : string) (l : Layer)       (* [NewLayerFromLayer] returned [l] *)
  | Removed (l : Layer)                                  (* [l.Remove()] was called *)
  | Warned (digest : string) (e : error)                 (* [slog.Warn] of [removeLayer] *)
  | Wrote (name : Name) (config : Layer) (layers : list Layer)   (* [WriteManifest] returned nil *)
  | Pruned (m : Manifest).                               (* [m.RemoveLayers()] was called *)

Record State : Type := mkState {
  world : World;
  trace : list Effect
}.

Definition M (A : Type) : Type := State → outcome A * State.

Definition ret {A} (a : A) : M A := λ s, (Return a, s).

Definition bind {A B} (m : M A) (k : A → M B) : M B :=
  λ s, match m s with
       | (Return a, s') => k a s'
       | (Raise e, s') => (Raise e, s')
       | (Diverge, s') => (Diverge, s')
       end.

Definition raise {A} (e : error) : M A := λ s, (Raise e, s).
Definition diverge {A} : M A := λ s, (Diverge, s).

(** [v, err := m] without the return on [err != nil]. *)
Definition catch {A} (m : M A) : M (result A) :=
  λ s, match m s with
       | (Return a, s') => (Return (Ok a), s')
       | (Raise e, s') => (Return (Err e), s')
       | (Diverge, s') => (Diverge, s')
       end.

Definition lift {A} (r : result A) : M A :=
  match r with Ok a => ret a | Err e => raise e end.

Definition emit (e : Effect) : M unit :=
  λ s, (Return (), mkState (world s) (trace s ++ [e])).

Definition read {A} (f : World → A) : M A := λ s, (Return (f (world s)), s).

(** An external call that changes the world and may fail. *)
Definition call {A} (f : World → World * result A) : M A :=
  λ s, let '(w, r) := f (world s) in lift r (mkState w (trace s)).

(** An external call that changes the world and returns only an error,
    handed to the caller as a value. *)
Definition call_err (f : World → World * option error) : M (option error) :=
  λ s, let '(w, r) := f (world s) in (Return r, mkState w (trace s)).

End Create.

Notation "'do' x <- m ; k" := (bind m (λ x, k))
  (at level 10, x name, m at level 100, k at level 200, only parsing).
Notation "'do' ' pat <- m ; k" := (bind m (λ x, match x with pat => k end))
  (at level 10, pat pattern, m at level 100, k at level 200, only parsing).
Notation "m ;; k" := (bind m (λ _, k))
  (at level 100, k at level 200, right associativity, only parsing).

(** ** The code of [create.go] *)

Section Code.
Context `{Ext : Externals}.

Definition sentinel_msg (s : sentinel) : string :=
  match s with
  | NoFilesProvided => "no files provided to convert"
  | OnlyOneAdapterSupported => "only one adapter is currently supported"
  | OnlyGGUFSupported => "supplied file was not in GGUF format"
  | UnknownType => "unknown type"
  | NeitherFromOrFiles => "neither 'from' or 'files' was specified"
  | BadTemplate => errBadTemplateMsg
  end.

(** [err.Error()]; [Wrapped] is [fmt.Errorf("%w: %s", s, detail)]. *)
Definition Error (e : error) : string :=
  match e with
  | Sentinel s => sentinel_msg s
  | Wrapped s detail => sentinel_msg s +:+ ": " +:+ detail
  | Opaque msg => msg
  end.

(** [fn(api.ProgressResponse{Status: st})], with the [fn] of the handler. *)
Definition fn (st : string) : M unit := emit (Sent (Progress st)).

Definition send (m : ChanMsg) : M unit := emit (Sent m).

Definition NewLayer' (content mediatype : string) : M Layer :=
  do layer <- call (NewLayer content mediatype);
  emit (Created content mediatype layer);;
  ret layer.

Definition NewLayerFromLayer' (digest mediatype name : string) : M Layer :=
  do layer <- call (NewLayerFromLayer digest mediatype name);
  emit (Linked digest mediatype layer);;
  ret layer.

Definition Remove (layer : Layer) : M (option error) :=
  emit (Removed layer);;
  call_err (Layer_Remove layer).

(** *** [removeLayer] *)

(** [slices.DeleteFunc] calls the predicate once on every element, in
    order, and keeps the elements it rejects. *)
Fixpoint removeLayer (layers : list Layer) (mediatype : string) : M (list Layer) :=
  match layers with
  | [] => ret []
  | layer :: rest =>
      if decide (MediaType layer ≠ mediatype) then
        do rest' <- removeLayer rest mediatype;
        ret (layer :: rest')
      else
        do err <- Remove layer;
        match err with
        | Some e => emit (Warned (Digest layer) e)
        | None => ret ()
        end;;
        removeLayer rest mediatype
  end.

(** *** The overlays *)

Definition setTemplate (layers : list Layer) (t : string) : M (list Layer) :=
  do layers <- removeLayer layers mtTemplate;
  match template_Parse t with
  | Some err => raise (Wrapped BadTemplate (Error err))
  | None =>
      match template_Parse t with
      | Some err => raise (Wrapped BadTemplate (Error err))
      | None =>
          do layer <- NewLayer' t mtTemplate;
          ret (layers ++ [layer])
      end
  end.

Definition setSystem (layers : list Layer) (s : string) : M (list Layer) :=
  do layers <- removeLayer layers mtSystem;
  if decide (s ≠ "") then
    do layer <- NewLayer' s mtSystem;
    ret (layers ++ [layer])
  else ret layers.

Definition setLicense (layers : list Layer) (l : string) : M (list Layer) :=
  do layer <- NewLayer' l mtLicense;
  ret (layers ++ [layer]).

(** The inner loop of [setParameters]: every key of [existing] that [p]
    does not have is copied into [p]. *)
Definition carryForward (p : gmap string any) (existing : list (string * any))
    : gmap string any :=
  foldl (λ p kv, match p !! kv.1 with
                 | Some _ => p
                 | None => <[kv.1 := kv.2]> p
                 end) p existing.

(** The parameters a layer stores: its blob is located, opened and decoded. *)
Definition storedParameters (layer : Layer) (w : World) : result (gmap string any) :=
  match GetBlobsPath (Digest layer) with
  | Err err => Err err
  | Ok digestPath =>
      match os_Open digestPath w with
      | Err err => Err err
      | Ok f => json_decode_params (File_Contents f w)
      end
  end.

(** The outer loop of [setParameters]: the stored map of every parameters
    layer is read back and carried forward into [p]. *)
Fixpoint loadParameters (layers : list Layer) (p : gmap string any)
    : M (gmap string any) :=
  match layers with
  | [] => ret p
  | layer :: rest =>
      if decide (MediaType layer ≠ mtParams) then loadParameters rest p
      else
        do existing <- read (storedParameters layer);
        do existing <- lift existing;
        loadParameters rest (carryForward p (map_to_list existing))
  end.

Definition setParameters (layers : list Layer) (p : option (gmap string any))
    : M (list Layer) :=
  let p := match p with Some p => p | None => ∅ end in
  do p <- loadParameters layers p;
  if decide (size p = 0%nat) then ret layers
  else
    do layers <- removeLayer layers mtParams;
    do b <- lift (json_encode_params p);
    do layer <- NewLayer' b mtParams;
    ret (layers ++ [layer]).

Definition setMessages (layers : list Layer) (m : list Message) : M (list Layer) :=
  if decide (List.length m = 0%nat) then ret layers
  else
    do layers <- removeLayer layers mtMessages;
    do b <- lift (json_encode_messages m);
    do layer <- NewLayer' b mtMessages;
    ret (layers ++ [layer]).

(** *** [createConfigLayer] *)

Definition withDiffIDs (config : ConfigV2) (digests : list string) : ConfigV2 :=
  mkConfigV2 (ModelFormat config) (ModelFamily config) (ModelFamilies config)
    (ModelType config) (CfgFileType config) (CfgArchitecture config) (OS config)
    (mkRootFS (RootFS_Type (CfgRootFS config)) digests).

Definition createConfigLayer (layers : list Layer) (config : ConfigV2) : M Layer :=
  let digests := map Digest layers in
  let config := withDiffIDs config digests in
  do b <- lift (json_encode_config config);
  NewLayer' b mtConfig.

End Code.

Section Pipeline.
Context `{Ext : Externals}.

(** *** [ggufLayers] *)

(** The loop [for offset < stat.Size()].  Its body assigns neither [offset]
    nor [layers]; [fuel] bounds the number of iterations that are run, and
    [Diverge] says the loop was still running when the fuel ran out. *)
Fixpoint ggufLayers_loop (fuel : nat) (digest : string) (blob : File)
    (size offset : Z) : M unit :=
  if decide (offset < size) then
    match fuel with
    | O => diverge
    | S fuel' =>
        do layer <-
          (if decide (digest ≠ "" ∧ offset = 0)
           then NewLayerFromLayer' digest mtModel (File_Name blob)
           else ret zeroLayer);
        do layer <-
          (if decide (Digest layer = "")
           then (do sr <- read (File_Section blob offset 1);
                 NewLayer' sr mtModel)
           else ret layer);
        ggufLayers_loop fuel' digest blob size offset
    end
  else ret ().

Definition ggufLayers (fuel : nat) (digest : string) : M (list layerGGML) :=
  let layers : list layerGGML := [] in
  fn "parsing GGUF";;
  do blobPath <- lift (GetBlobsPath digest);
  do blob <- read (os_Open blobPath);
  do blob <- lift blob;
  do sr <- read (File_Section blob 0 512);
  do contentType <- lift (detectContentType sr);
  if decide (contentType ≠ "gguf") then raise errOnlyGGUFSupported
  else
    do size <- read (File_Stat_Size blob);
    do size <- lift size;
    ggufLayers_loop fuel digest blob size 0;;
    call (detectChatTemplate layers).

(** *** Format detection and conversion *)

(** [files[fn]]: the value stored under [fn], the zero value if none. *)
Definition index (files : list (string * string)) (fn : string) : string :=
  match List.find (λ kv, bool_decide (kv.1 = fn)) files with
  | Some kv => kv.2
  | None => ""
  end.

Fixpoint detectModelType_range (files rest : list (string * string)) (w : World)
    : string :=
  match rest with
  | [] => ""
  | (fn, _) :: rest =>
      if HasSuffix fn ".safetensors" then "safetensors"
      else if HasSuffix fn ".gguf" then "gguf"
      else
        match GetBlobsPath (index files fn) with
        | Err _ => ""
        | Ok blobPath =>
            match os_Open blobPath w with
            | Err _ => ""
            | Ok f =>
                match File_Read f 4 w with
                | Err _ => ""
                | Ok buf =>
                    let ct := DetectGGMLType buf in
                    if decide (ct = "gguf") then "gguf"
                    else detectModelType_range files rest w
                end
            end
        end
  end.

Definition detectModelTypeFromFiles (files : list (string * string)) : M string :=
  read (detectModelType_range files files).

Fixpoint convertModel_range (fuel : nat) (rest : list (string * string))
    (allLayers : list layerGGML) : M (list layerGGML) :=
  match rest with
  | [] => ret allLayers
  | (_, v) :: rest =>
      let digest := v in
      do layers <- ggufLayers fuel digest;
      convertModel_range fuel rest (allLayers ++ layers)
  end.

Definition convertModelFromFiles (fuel : nat) (files : list (string * string))
    (baseLayers : list layerGGML) (isAdapter : bool) : M (list layerGGML) :=
  do t <- detectModelTypeFromFiles files;
  if decide (t = "gguf") then
    if decide (List.length files = 0%nat) then raise errNoFilesProvided
    else if (1 <? List.length files)%nat && isAdapter
    then raise errOnlyOneAdapterSupported
    else convertModel_range fuel files []
  else raise errUnknownType.

(** *** [kvFromLayers] *)

Fixpoint kvFromLayers (baseLayers : list layerGGML) : result KV :=
  match baseLayers with
  | [] => Err errNoBaseModel
  | l :: rest =>
      match lGGML l with
      | Some g => Ok (GGML_KV g)
      | None => kvFromLayers rest
      end
  end.

End Pipeline.

Section Orchestrator.
Context `{Ext : Externals}.

(** *** [createModel] *)

Definition initialConfig : ConfigV2 :=
  mkConfigV2 "" "" [] "" "" "amd64" "linux" (mkRootFS "layers" []).

(** The five assignments to [config] for a layer that carries metadata. *)
Definition aggregate (config : ConfigV2) (g : GGML) : ConfigV2 :=
  mkConfigV2
    (cmp_Or (ModelFormat config) (GGML_Name g))
    (cmp_Or (ModelFamily config) (Architecture (GGML_KV g)))
    (ModelFamilies config ++ [Architecture (GGML_KV g)])
    (cmp_Or (ModelType config) (HumanNumber (ParameterCount (GGML_KV g))))
    (cmp_Or (CfgFileType config) (FileType (GGML_KV g)))
    (CfgArchitecture config) (OS config) (CfgRootFS config).

(** The loop over [baseLayers].  [err] is the named result of [createModel],
    which nothing has assigned yet when the loop reads it. *)
Fixpoint createModel_base (r : CreateRequest) (baseLayers : list layerGGML)
    (config : ConfigV2) (layers : list Layer) : M (ConfigV2 * list Layer) :=
  match baseLayers with
  | [] => ret (config, layers)
  | layer :: rest =>
      do config <-
        match lGGML layer with
        | Some ggml =>
            let err : option error := None in
            let quantType := ToUpper (cmp_Or (Quantize r) (Quantization r)) in
            (if decide (quantType ≠ "" ∧ GGML_Name ggml = "gguf"
                        ∧ MediaType (lLayer layer) = mtModel) then
               match err with
               | Some e => raise e
               | None =>
                   let ft := FileType (GGML_KV ggml) in
                   if decide (ft ∈ ["F16"; "F32"]) then ret ()
                   else raise errQuantizeSource
               end
             else ret ());;
            ret (aggregate config ggml)
        | None => ret config
        end;
      createModel_base r rest config (layers ++ [lLayer layer])
  end.

Fixpoint setLicenses (layers : list Layer) (licenses : list string) : M (list Layer) :=
  match licenses with
  | [] => ret layers
  | v :: rest =>
      do layers <- setLicense layers v;
      setLicenses layers rest
  end.

Fixpoint reportStatus (layers : list Layer) : M unit :=
  match layers with
  | [] => ret ()
  | layer :: rest =>
      (if decide (status layer ≠ "") then fn (status layer) else ret ());;
      reportStatus rest
  end.

Definition WriteManifest' (name : Name) (config : Layer) (layers : list Layer) : M unit :=
  do err <- call_err (WriteManifest name config layers);
  match err with
  | Some e => raise e
  | None => emit (Wrote name config layers)
  end.

Definition createModel (r : CreateRequest) (name : Name)
    (baseLayers : list layerGGML) : M unit :=
  do '(config, layers) <- createModel_base r baseLayers initialConfig [];
  do layers <-
    (if decide (Template r ≠ "") then setTemplate layers (Template r) else ret layers);
  do layers <-
    (if decide (System r ≠ "") then setSystem layers (System r) else ret layers);
  do layers <-
    match License r with
    | Some (LicenseString l) =>
        if decide (l ≠ "") then setLicense layers l else ret layers
    | Some (LicenseAny l) =>
        do licenses <- lift (json_strings l);
        setLicenses layers licenses
    | None => ret layers
    end;
  do layers <- setParameters layers (Parameters r);
  do layers <- setMessages layers (Messages r);
  do configLayer <- createConfigLayer layers config;
  reportStatus layers;;
  fn "writing manifest";;
  WriteManifest' name configLayer layers.

(** *** [CreateHandler] *)

Definition parseFromModel' (name : Name) : M (result (list layerGGML)) :=
  λ s, let '(w, statuses, r) := parseFromModel name (world s) in
       (Return r, mkState w (trace s ++ map (λ st, Sent (Progress st)) statuses)).

Definition RemoveLayers' (m : Manifest) : M (option error) :=
  emit (Pruned m);;
  call_err (RemoveLayers m).

(** The goroutine of the handler, in three parts.  A part yields [None]
    where the goroutine returns, and the value it goes on with otherwise. *)

(** Lines 68 to 99: the base layers.  On an error of [parseFromModel] the
    code goes on with the slice returned beside the error, nil. *)
Definition CreateHandler_source (fuel : nat) (r : CreateRequest)
    : M (option (list layerGGML)) :=
  if decide (From r ≠ "") then
    let fromName := ParseName (From r) in
    if negb (IsValid fromName) then
      send (ErrorMsg InvalidModelNameErrMsg (Some StatusBadRequest));;
      ret None
    else
      do res <- parseFromModel' fromName;
      match res with
      | Err err => send (ErrorMsg (Error err) None);; ret (Some [])
      | Ok baseLayers => ret (Some baseLayers)
      end
  else
    match Files r with
    | Some files =>
        do res <- catch (convertModelFromFiles fuel files [] false);
        match res with
        | Err err =>
            if existsb (errors_Is err)
                 [NoFilesProvided; OnlyGGUFSupported; UnknownType]
            then send (ErrorMsg (Error err) (Some StatusBadRequest));; ret None
            else send (ErrorMsg (Error err) None);; ret None
        | Ok baseLayers => ret (Some baseLayers)
        end
    | None =>
        send (ErrorMsg (Error errNeitherFromOrFiles) (Some StatusBadRequest));;
        ret None
    end.

(** Lines 101 to 114: the adapter layers. *)
Definition CreateHandler_adapters (fuel : nat) (r : CreateRequest)
    (baseLayers : list layerGGML) : M (option (list layerGGML)) :=
  match Adapters r with
  | Some adapters =>
      do res <- catch (convertModelFromFiles fuel adapters baseLayers true);
      match res with
      | Err err =>
          if existsb (errors_Is err)
               [NoFilesProvided; OnlyOneAdapterSupported;
                OnlyGGUFSupported; UnknownType]
          then send (ErrorMsg (Error err) (Some StatusBadRequest));; ret None
          else send (ErrorMsg (Error err) (Some StatusBadRequest));; ret None
      | Ok adapterLayers => ret (Some adapterLayers)
      end
  | None => ret (Some [])
  end.

(** Lines 116 to 135: creation, pruning and the final event. *)
Definition CreateHandler_create (r : CreateRequest) (name : Name)
    (oldManifest : option Manifest) (baseLayers adapterLayers : list layerGGML)
    : M unit :=
  let baseLayers :=
    if (0 <? List.length adapterLayers)%nat
    then baseLayers ++ adapterLayers else baseLayers in
  do res <- catch (createModel r name baseLayers);
  match res with
  | Err err =>
      if errors_Is err BadTemplate
      then send (ErrorMsg (Error err) (Some StatusBadRequest))
      else send (ErrorMsg (Error err) None)
  | Ok _ =>
      do noPrune <- read NoPrune;
      (if negb noPrune then
         match oldManifest with
         | Some old =>
             do err <- RemoveLayers' old;
             match err with
             | Some err => send (ErrorMsg (Error err) None)
             | None => ret ()
             end
         | None => ret ()
         end
       else ret ());;
      send (Progress "success")
  end.

Definition CreateHandler_go (fuel : nat) (r : CreateRequest) (name : Name) : M unit :=
  do oldManifest <- read (ParseNamedManifest name);
  do source <- CreateHandler_source fuel r;
  match source with
  | None => ret ()
  | Some baseLayers =>
      do adapted <- CreateHandler_adapters fuel r baseLayers;
      match adapted with
      | None => ret ()
      | Some adapterLayers =>
          CreateHandler_create r name oldManifest baseLayers adapterLayers
      end
  end.

End Orchestrator.

Section Handler.
Context `{Ext : Externals}.

(** What [c.ShouldBindJSON(&r)] made of the request body. *)
Inductive Body : Type :=
  | MissingBody                       (* [io.EOF] *)
  | BadBody (err : error)
  | Bound (r : CreateRequest).

(** What the handler does with the request: it aborts with a status and a
    message, or starts the goroutine and hands its channel to the response
    writer. *)
Inductive Response : Type :=
  | Aborted (code : Z) (msg : string)
  | Streaming (run : outcome unit * State).

Definition CreateHandler (fuel : nat) (body : Body) (w : World) : Response :=
  match body with
  | MissingBody => Aborted StatusBadRequest "missing request body"
  | BadBody err => Aborted StatusBadRequest (Error err)
  | Bound r =>
      let name := ParseName (cmp_Or (ReqModel r) (ReqName r)) in
      if negb (IsValid name) then Aborted StatusBadRequest InvalidModelNameErrMsg
      else
        match getExistingName name w with
        | Err err => Aborted StatusBadRequest (Error err)
        | Ok name => Streaming (CreateHandler_go fuel r name (mkState w []))
        end
  end.

(** The messages sent on the channel, in order. *)
Definition sent (t : list Effect) : list ChanMsg :=
  omap (λ e, match e with Sent m => Some m | _ => None end) t.

(** The config layer and the layers of the manifests written, in order. *)
Definition wrote (t : list Effect) : list (Layer * list Layer) :=
  omap (λ e, match e with Wrote _ c l => Some (c, l) | _ => None end) t.

End Handler.

(** ** An in-memory implementation of the interface *)

(** Modelled from the spec: the blob store, the layer constructors, the
    manifest store, the codecs and the format decoder are not part of
    [create.go].  This implementation follows sections 3, 4.1, 4.2 and 4.6:
    blobs are stored once under a digest computed from their content, a
    layer is a (digest, media type, size) triple referencing a blob,
    removing a layer deletes its blob only when no manifest references it,
    and writing a manifest supersedes the one stored under the same name.
    The codecs are small textual ones and the decoder recognises the magic
    ["GGUF"] followed by the file type. *)
Module Mem.

Record store : Type := mkStore {
  blobs : gmap string string;
  manifests : gmap string (Layer * list Layer);
  noPrune : bool
}.

Definition blobsDir : string := "/blobs/".

Definition digestOf (content : string) : string := "sha256:" +:+ content.

Definition sizeOf (content : string) : Z := Z.of_nat (String.length content).

Definition getBlobsPath (digest : string) : result string :=
  Ok (blobsDir +:+ digest).

(** An open file is the digest of the blob it was opened on. *)
Definition open (path : string) (w : store) : result string :=
  let digest := substring (String.length blobsDir)
                  (String.length path - String.length blobsDir) path in
  match blobs w !! digest with
  | Some _ => Ok digest
  | None => Err (Opaque ("open " +:+ path +:+ ": no such file or directory"))
  end.

Definition contents (f : string) (w : store) : string :=
  default "" (blobs w !! f).

Definition section (f : string) (off n : Z) (w : store) : string :=
  substring (Z.to_nat off) (Z.to_nat n) (contents f w).

Definition readAt0 (f : string) (n : nat) (w : store) : result string :=
  let c := contents f w in
  if decide (c = "") then Err (Opaque "EOF") else Ok (substring 0 n c).

Definition newLayer (content mediatype : string) (w : store) : store * result Layer :=
  let digest := digestOf content in
  match blobs w !! digest with
  | Some _ =>
      (w, Ok (mkLayer mediatype digest (sizeOf content)
                ("using existing layer " +:+ digest)))
  | None =>
      (mkStore (<[digest := content]> (blobs w)) (manifests w) (noPrune w),
       Ok (mkLayer mediatype digest (sizeOf content)
             ("creating new layer " +:+ digest)))
  end.

Definition newLayerFromLayer (digest mediatype name : string) (w : store)
    : store * result Layer :=
  match blobs w !! digest with
  | Some content =>
      (w, Ok (mkLayer mediatype digest (sizeOf content)
                ("using existing layer " +:+ digest)))
  | None => (w, Err (Opaque ("open " +:+ name +:+ ": no such file or directory")))
  end.

Definition referenced (digest : string) (w : store) : bool :=
  bool_decide (Exists (λ m : Layer * list Layer,
                         Exists (λ l, Digest l = digest) (m.1 :: m.2))
                 (map snd (map_to_list (manifests w)))).

Definition remove (l : Layer) (w : store) : store * option error :=
  if decide (Digest l = "") then (w, None)
  else if referenced (Digest l) w then (w, None)
  else
    match blobs w !! Digest l with
    | Some _ => (mkStore (delete (Digest l) (blobs w)) (manifests w) (noPrune w), None)
    | None => (w, Some (Opaque ("remove " +:+ Digest l +:+ ": no such file or directory")))
    end.

(** Pruning a manifest removes its layers and its config layer; a blob that
    is already gone is skipped. *)
Definition removeLayers (m : Layer * list Layer) (w : store) : store * option error :=
  (foldl (λ w l, (remove l w).1) w (m.2 ++ [m.1]), None).

Definition writeManifest (name : string) (config : Layer) (layers : list Layer)
    (w : store) : store * option error :=
  (mkStore (blobs w) (<[name := (config, layers)]> (manifests w)) (noPrune w), None).

Definition detectGGMLType (buf : string) : string :=
  if String.prefix "GGUF" buf then "gguf" else "".

Definition detectContent (sr : string) : result string :=
  if decide (sr = "") then Err (Opaque "EOF") else Ok (detectGGMLType sr).

(** The decoder: the bytes after the magic are the file type. *)
Definition decode (content : string) : option GGML :=
  if String.prefix "GGUF" content
  then Some (mkGGML "gguf"
               (mkKV "llama" 7000000000
                  (substring 4 (String.length content - 4) content)))
  else None.

Definition fromModel (name : string) (w : store)
    : store * list string * result (list layerGGML) :=
  match manifests w !! name with
  | Some m =>
      (w, [],
       Ok (map (λ l, mkLayerGGML l
                       (if decide (MediaType l = mtModel)
                        then decode (default "" (blobs w !! Digest l))
                        else None))
             m.2))
  | None => (w, [], Err (Opaque "pull model manifest: file does not exist"))
  end.

Fixpoint splitOn (c : ascii) (s : string) : list string :=
  match s with
  | EmptyString => [EmptyString]
  | String a s' =>
      let r := splitOn c s' in
      if decide (a = c) then EmptyString :: r
      else match r with
           | h :: t => String a h :: t
           | [] => [String a EmptyString]
           end
  end.

(** Parameters are written as [key=value;] entries. *)
Definition encodeParams (p : gmap string string) : result string :=
  Ok (foldr (λ kv acc, kv.1 +:+ "=" +:+ kv.2 +:+ ";" +:+ acc) "" (map_to_list p)).

Fixpoint decodeEntries (entries : list string) : result (gmap string string) :=
  match entries with
  | [] => Ok ∅
  | e :: rest =>
      if decide (e = "") then decodeEntries rest
      else
        match splitOn "=" e, decodeEntries rest with
        | [k; v], Ok m => Ok (<[k := v]> m)
        | _, _ => Err (Opaque "invalid character looking for beginning of value")
        end
  end.

Definition decodeParams (text : string) : result (gmap string string) :=
  decodeEntries (splitOn ";" text).

Definition encodeMessages (m : list Message) : result string :=
  Ok (foldr (λ x acc, Role x +:+ ":" +:+ Content x +:+ ";" +:+ acc) "" m).

Definition encodeConfig (c : ConfigV2) : result string :=
  Ok (String.concat "|"
        [ModelFormat c; ModelFamily c; String.concat "," (ModelFamilies c);
         ModelType c; CfgFileType c; CfgArchitecture c; OS c;
         RootFS_Type (CfgRootFS c); String.concat "," (DiffIDs (CfgRootFS c))]).

Definition parseTemplate (t : string) : option error :=
  if HasSuffix t "{{" then Some (Opaque "template: unclosed action") else None.

Definition ext : Externals := {|
  World := store;
  any := string;
  Name := string;
  File := string;
  Manifest := Layer * list Layer;
  ParseName := λ s, s;
  IsValid := λ n, negb (bool_decide (n = ""));
  getExistingName := λ n _, Ok n;
  InvalidModelNameErrMsg := "invalid model name";
  errBadTemplateMsg := "template error";
  ParseNamedManifest := λ n w, manifests w !! n;
  RemoveLayers := removeLayers;
  WriteManifest := writeManifest;
  NoPrune := noPrune;
  parseFromModel := fromModel;
  GetBlobsPath := getBlobsPath;
  os_Open := open;
  File_Name := λ f, blobsDir +:+ f;
  File_Stat_Size := λ f w, Ok (sizeOf (contents f w));
  File_Read := readAt0;
  File_Section := section;
  File_Contents := contents;
  NewLayer := newLayer;
  NewLayerFromLayer := newLayerFromLayer;
  Layer_Remove := remove;
  DetectGGMLType := detectGGMLType;
  detectContentType := detectContent;
  detectChatTemplate := λ layers w, (w, Ok layers);
  HumanNumber := λ n, if decide (1000000000 ≤ n)%Z then "B" else "M";
  template_Parse := parseTemplate;
  json_decode_params := decodeParams;
  json_encode_params := encodeParams;
  json_encode_messages := encodeMessages;
  json_encode_config := encodeConfig;
  json_strings := λ v, Ok (splitOn "," v)
|}.

Definition emptyStore : store := mkStore ∅ ∅ false.

(** The state before a run: a store and an empty trace. *)
Definition start (w : store) : @State ext := @mkState ext w [].

(** *** A store and requests to run the code on *)

Definition modelLayer : Layer := mkLayer mtModel (digestOf "GGUFQ4_0") 8 "".
Definition systemLayer : Layer := mkLayer mtSystem (digestOf "be brief") 8 "".
Definition paramsLayer : Layer := mkLayer mtParams (digestOf "a=1;") 4 "".
Definition baseConfigLayer : Layer := mkLayer mtConfig (digestOf "config") 6 "".

(** The model ["base"]: quantized GGUF weights, a system prompt and the
    parameters [{a: 1}]. *)
Definition baseStore : store :=
  mkStore
    {[ digestOf "GGUFQ4_0" := "GGUFQ4_0";
       digestOf "be brief" := "be brief";
       digestOf "a=1;" := "a=1;";
       digestOf "config" := "config" ]}
    {[ "base" := (baseConfigLayer, [modelLayer; systemLayer; paramsLayer]) ]}
    false.

Definition quantizedGGML : GGML := mkGGML "gguf" (mkKV "llama" 7000000000 "Q4_0").

(** The base layers [parseFromModel] yields for ["base"]. *)
Definition baseLayers : list layerGGML :=
  [mkLayerGGML modelLayer (Some quantizedGGML);
   mkLayerGGML systemLayer None;
   mkLayerGGML paramsLayer None].

(** Base layers without any metadata. *)
Definition plainLayers : list layerGGML := [mkLayerGGML systemLayer None].

(** [{"model": "m", "from": from}] with a quantization type and adapters. *)
Definition request (from quantize : string)
    (adapters : option (list (string * string))) : @CreateRequest ext :=
  @mkCreateRequest ext "m" "" None quantize "" from None adapters "" None "" None [].

Definition reqFromMissing : @CreateRequest ext := request "missing" "" None.
Definition reqFromBase : @CreateRequest ext := request "base" "" None.
Definition reqQuantize : @CreateRequest ext := request "base" "q8_0" None.
Definition reqAdapter : @CreateRequest ext :=
  request "base" "" (Some [("lora.gguf", digestOf "absent")]).

(** The layer [NewLayer] returns for a content that is not stored yet, and
    for one that is. *)
Definition created (content mediatype : string) : Layer :=
  mkLayer mediatype (digestOf content) (sizeOf content)
    ("creating new layer " +:+ digestOf content).

Definition reused (content mediatype : string) : Layer :=
  mkLayer mediatype (digestOf content) (sizeOf content)
    ("using existing layer " +:+ digestOf content).

(** The layers and the config of the model created from ["base"] without
    overlays: the parameters layer is written again from the merged map. *)
Definition createdLayers : list Layer :=
  [modelLayer; systemLayer; reused "a=1;" mtParams].

Definition createdConfig : string :=
  "gguf|llama|llama|B|Q4_0|amd64|linux|layers|sha256:GGUFQ4_0,sha256:be brief,sha256:a=1;".

(** One more call of [setParameters], on the layers and the store the
    previous call left. *)
Definition thenParameters (p : gmap string string)
    (prev : outcome (list Layer) * @State ext) : outcome (list Layer) * @State ext :=
  match prev with
  | (Return layers, s) => @setParameters ext layers (Some p) s
  | _ => prev
  end.

(** The parameters in effect after a call: what the parameters layer of
    the returned layer set stores. *)
Definition effective (x : outcome (list Layer) * @State ext)
    : option (result (gmap string string)) :=
  match x with
  | (Return layers, s) =>
      (λ l, @storedParameters ext l (@world ext s))
        <$> List.find (λ l, bool_decide (MediaType l = mtParams)) layers
  | _ => None
  end.

(** The config of the model created from [plainLayers]. *)
Definition plainConfig : string := "|||||amd64|linux|layers|sha256:be brief".

End Mem.

(** ** More stores and requests *)

Module Cases.
Import Mem.

Definition templateLayer : Layer := mkLayer mtTemplate (digestOf "{{ .Prompt }}") 13 "".
Definition messagesLayer : Layer := mkLayer mtMessages (digestOf "user:hi;") 8 "".
Definition licenseLayer : Layer := mkLayer mtLicense (digestOf "MIT") 3 "".

(** A parameters layer whose blob is not in the store. *)
Definition lostParameters : Layer := mkLayer mtParams (digestOf "lost") 4 "".

(** The store of [Mem], with a template, seed messages, a license and a
    text file that is not a GGUF file. *)
Definition richStore : store :=
  mkStore
    (<[digestOf "{{ .Prompt }}" := "{{ .Prompt }}"]>
       (<[digestOf "user:hi;" := "user:hi;"]>
          (<[digestOf "MIT" := "MIT"]>
             (<[digestOf "plain text" := "plain text"]> (blobs baseStore)))))
    (manifests baseStore) false.

(** The base layers of [Mem] with layers of the other kinds. *)
Definition richLayers : list layerGGML :=
  baseLayers
  ++ [mkLayerGGML templateLayer None;
      mkLayerGGML messagesLayer None;
      mkLayerGGML licenseLayer None].

Definition reqBadTemplate : @CreateRequest ext :=
  @mkCreateRequest ext "m" "" None "" "" "base" None None "{{ .Prompt {{" None ""
    None [].

Definition reqNeither : @CreateRequest ext :=
  @mkCreateRequest ext "m" "" None "" "" "" None None "" None "be brief" None [].

Definition reqNoFiles : @CreateRequest ext :=
  @mkCreateRequest ext "m" "" None "" "" "" (Some []) None "" None "" None [].

Definition reqTextFile : @CreateRequest ext :=
  @mkCreateRequest ext "m" "" None "" "" ""
    (Some [("model.gguf", digestOf "plain text")]) None "" None "" None [].

Definition reqGGUFFile : @CreateRequest ext :=
  @mkCreateRequest ext "m" "" None "" "" ""
    (Some [("model.gguf", digestOf "GGUFQ4_0")]) None "" None "" None [].

Definition twoAdapters : list (string * string) :=
  [("a.gguf", digestOf "GGUFQ4_0"); ("b.gguf", digestOf "GGUFQ4_0")].

Definition reqTwoAdapters : @CreateRequest ext := request "base" "" (Some twoAdapters).

End Cases.

(** ** Vocabulary of the properties *)

(** A terminal event: an error, or the success marker. *)
Definition isTerminal (m : ChanMsg) : bool :=
  match m with
  | ErrorMsg _ _ => true
  | Progress st => bool_decide (st = "success")
  end.

(** The layers [removeLayer] keeps. *)
Definition others (mediatype : string) (layers : list Layer) : list Layer :=
  filter (λ l, MediaType l ≠ mediatype) layers.

(** The layer set holds a parameters layer. *)
Definition hasParameters (layers : list Layer) : bool :=
  existsb (λ l, bool_decide (MediaType l = mtParams)) layers.

(** A base layer that the quantization rule rejects: a GGUF model layer
    whose file type is neither F16 nor F32. *)
Definition alreadyQuantized (layer : layerGGML) : bool :=
  match lGGML layer with
  | Some ggml =>
      bool_decide (GGML_Name ggml = "gguf")
      && bool_decide (MediaType (lLayer layer) = mtModel)
      && negb (bool_decide (FileType (GGML_KV ggml) ∈ ["F16"; "F32"]))
  | None => false
  end.

Section Vocabulary.
Context `{Ext : Externals}.

(** A computation appends to the trace and never rewrites it. *)
Definition mono {A} (m : M A) : Prop :=
  ∀ s, trace s `prefix_of` trace (m s).2.

(** The request asks for a quantization type. *)
Definition quantizationRequested (r : CreateRequest) : bool :=
  negb (bool_decide (cmp_Or (Quantize r) (Quantization r) = "")).

(** Every parameters layer of the set stores [E]. *)
Definition allStore (layers : list Layer) (w : World) (E : gmap string any) : Prop :=
  Forall (λ l, MediaType l = mtParams → storedParameters l w = Ok E) layers.

End Vocabulary.

(** ** Vocabulary of the further properties *)

(** The first string of a list that is not empty, [""] if there is none. *)
Fixpoint firstNonEmpty (l : list string) : string :=
  match l with
  | [] => ""
  | x :: l => if decide (x = "") then firstNonEmpty l else x
  end.

(** The metadata the base layers carry, in layer order. *)
Definition metadata (base : list layerGGML) : list GGML := omap lGGML base.

(** The layers [removeLayer] drops. *)
Definition those (mediatype : string) (layers : list Layer) : list Layer :=
  filter (λ l, MediaType l = mediatype) layers.

(** The progress events [createModel] sends for the statuses of its layers. *)
Definition statusEvents (layers : list Layer) : list ChanMsg :=
  map Progress (filter (λ st, st ≠ "") (map status layers)).

(** The first parameters layer of a layer set. *)
Definition firstParameters (layers : list Layer) : option Layer :=
  List.find (λ l, bool_decide (MediaType l = mtParams)) layers.

Section MoreVocabulary.
Context `{Ext : Externals}.

(** An effect on the blob store: a layer created, linked or removed, or the
    warning of a failed removal. *)
Definition storeEffect (e : Effect) : Prop :=
  match e with
  | Created _ _ _ | Linked _ _ _ | Removed _ | Warned _ _ => True
  | _ => False
  end.

(** The removal of a layer, or its warning. *)
Definition removalEffect (e : Effect) : Prop :=
  match e with
  | Removed _ | Warned _ _ => True
  | _ => False
  end.

(** The layers [Remove] was called on, in order. *)
Definition removed (t : list Effect) : list Layer :=
  omap (λ e, match e with Removed l => Some l | _ => None end) t.

(** The contents and layers of the [NewLayer] calls that returned, in order. *)
Definition creations (t : list Effect) : list (string * string * Layer) :=
  omap (λ e, match e with Created c m l => Some (c, m, l) | _ => None end) t.

(** A computation appends to the trace only effects that satisfy [Q]. *)
Definition adds {A} (Q : Effect → Prop) (m : M A) : Prop :=
  ∀ s, ∃ t, trace (m s).2 = trace s ++ t ∧ Forall Q t.

(** [createModel] up to the creation of the config layer: the composed
    layers and the config layer, before anything is reported. *)
Definition createModel_front (r : CreateRequest) (baseLayers : list layerGGML)
    : M (list Layer * Layer) :=
  do '(config, layers) <- createModel_base r baseLayers initialConfig [];
  do layers <-
    (if decide (Template r ≠ "") then setTemplate layers (Template r) else ret layers);
  do layers <-
    (if decide (System r ≠ "") then setSystem layers (System r) else ret layers);
  do layers <-
    match License r with
    | Some (LicenseString l) =>
        if decide (l ≠ "") then setLicense layers l else ret layers
    | Some (LicenseAny l) =>
        do licenses <- lift (json_strings l);
        setLicenses layers licenses
    | None => ret layers
    end;
  do layers <- setParameters layers (Parameters r);
  do layers <- setMessages layers (Messages r);
  do configLayer <- createConfigLayer layers config;
  ret (layers, configLayer).

(** The status the goroutine gives an error of the conversion of the base
    files. *)
Definition fileErrorStatus (e : error) : option Z :=
  if errors_Is e NoFilesProvided || errors_Is e OnlyGGUFSupported
     || errors_Is e UnknownType
  then Some StatusBadRequest else None.

End MoreVocabulary.

(** * Properties *)

(** ** The monad *)

Section MonadFacts.
Context `{Ext : Externals}.

Lemma bind_Return {A B} (m : M A) (k : A → M B) s b s' :
  bind m k s = (Return b, s') →
  ∃ a s1, m s = (Return a, s1) ∧ k a s1 = (Return b, s').
Proof.
  unfold bind. destruct (m s) as [[a|e|] s1]; intros Hk; try discriminate.
  by exists a, s1.
Qed.

Lemma bind_eq {A B} (m : M A) (k : A → M B) s a s1 :
  m s = (Return a, s1) → bind m k s = k a s1.
Proof. unfold bind. by intros ->. Qed.

Lemma bind_Raise {A B} (m : M A) (k : A → M B) s e s1 :
  m s = (Raise e, s1) → bind m k s = (Raise e, s1).
Proof. unfold bind. by intros ->. Qed.

Lemma lift_Return {A} (r : result A) s a s' :
  lift r s = (Return a, s') → r = Ok a ∧ s' = s.
Proof. destruct r; cbn; intros [= -> ->]; auto. Qed.

Lemma run_eta {A} (x : outcome A * State) o : x.1 = o → x = (o, x.2).
Proof. destruct x. by intros <-. Qed.

Lemma read_Return {A} (f : World → A) s a s' :
  read f s = (Return a, s') → a = f (world s) ∧ s' = s.
Proof. by intros [= <- <-]. Qed.

Lemma emit_Return e s a s' :
  emit e s = (Return a, s') → s' = mkState (world s) (trace s ++ [e]).
Proof. by intros [= <-]. Qed.

Lemma ToUpper_empty s : ToUpper s = "" ↔ s = "".
Proof. destruct s; cbn; split; congruence. Qed.

End MonadFacts.

(** ** [removeLayer] *)

Section RemoveLayer.
Context `{Ext : Externals}.

Lemma removeLayer_Return layers mediatype s :
  ∃ s', removeLayer layers mediatype s = (Return (others mediatype layers), s').
Proof.
  revert s. induction layers as [|layer rest IH]; intros s.
  - by exists s.
  - unfold others in *. rewrite filter_cons. cbn [removeLayer].
    destruct (decide (MediaType layer ≠ mediatype)).
    + destruct (IH s) as [s' Hs']. exists s'.
      by rewrite (bind_eq _ _ _ _ _ Hs').
    + unfold Remove, call_err, emit, bind; cbn.
      destruct (Layer_Remove layer (world s)) as [w [e|]]; cbn; apply IH.
Qed.

(** C10: for every layer list and media type, whatever [Layer.Remove]
    does and returns, [removeLayer] returns, and the list it returns holds
    no layer of the media type and is the input list with exactly those
    layers left out, the others in their original order. *)
Theorem removeLayer_drops_media_type layers mediatype s :
  ∃ out s',
    removeLayer layers mediatype s = (Return out, s')
    ∧ (∀ l, l ∈ out → MediaType l ≠ mediatype)
    ∧ (∀ l, l ∈ out ↔ l ∈ layers ∧ MediaType l ≠ mediatype)
    ∧ out = others mediatype layers
    ∧ out `sublist_of` layers.
Proof.
  destruct (removeLayer_Return layers mediatype s) as [s' Hs'].
  exists (others mediatype layers), s'. split; [done|]. unfold others.
  split; [|split; [|split]].
  - intros l Hl. by apply list_elem_of_filter in Hl as [? _].
  - intros l. rewrite list_elem_of_filter. tauto.
  - done.
  - apply sublist_filter.
Qed.

(** A failed deletion is logged and the layer is dropped all the same. *)
Lemma removeLayer_failed_removal layer w e s :
  Layer_Remove layer (world s) = (w, Some e) →
  removeLayer [layer] (MediaType layer) s
  = (Return [], mkState w (trace s ++ [Removed layer; Warned (Digest layer) e])).
Proof.
  intros Hrm. cbn [removeLayer].
  destruct (decide (MediaType layer ≠ MediaType layer)); [done|].
  unfold Remove, call_err, emit, bind, ret. cbn. rewrite Hrm. cbn.
  by rewrite <-app_assoc.
Qed.

End RemoveLayer.

(** ** The trace only grows *)

Section Mono.
Context `{Ext : Externals}.

Lemma mono_ret {A} (a : A) : mono (ret a).
Proof. by intros s. Qed.

Lemma mono_raise {A} e : mono (@raise _ A e).
Proof. by intros s. Qed.

Lemma mono_diverge {A} : mono (@diverge _ A).
Proof. by intros s. Qed.

Lemma mono_lift {A} (r : result A) : mono (lift r).
Proof. destruct r; [apply mono_ret | apply mono_raise]. Qed.

Lemma mono_emit e : mono (emit e).
Proof. intros s. cbn. by apply prefix_app_r. Qed.

Lemma mono_read {A} (f : World → A) : mono (read f).
Proof. by intros s. Qed.

Lemma mono_call {A} (f : World → World * result A) : mono (call f).
Proof.
  intros s. unfold call. destruct (f (world s)) as [w [a|e]]; by cbn.
Qed.

Lemma mono_call_err f : mono (call_err f).
Proof. intros s. unfold call_err. by destruct (f (world s)) as [w r]. Qed.

Lemma mono_bind {A B} (m : M A) (k : A → M B) :
  mono m → (∀ a, mono (k a)) → mono (bind m k).
Proof.
  intros Hm Hk s. unfold bind. specialize (Hm s).
  destruct (m s) as [[a|e|] s1]; cbn in *; try done.
  etrans; [exact Hm|]. apply Hk.
Qed.

Lemma mono_catch {A} (m : M A) : mono m → mono (catch m).
Proof.
  intros Hm s. unfold catch. specialize (Hm s).
  by destruct (m s) as [[a|e|] s1].
Qed.

End Mono.

Create HintDb mono.

#[local] Hint Resolve mono_ret mono_raise mono_diverge mono_lift mono_emit
  mono_read mono_call mono_call_err : mono.

Ltac mono_step :=
  match goal with
  | |- mono (bind _ _) => apply mono_bind; [|intros ?]
  | |- mono (catch _) => apply mono_catch
  | |- mono (match ?x with _ => _ end) => destruct x
  | |- mono (let _ := _ in _) => cbv zeta
  | |- mono _ => solve [auto with mono]
  end.

Section MonoCode.
Context `{Ext : Externals}.

Lemma mono_fn st : mono (fn st).
Proof. apply mono_emit. Qed.

Lemma mono_NewLayer' c mt : mono (NewLayer' c mt).
Proof. unfold NewLayer'. repeat mono_step. Qed.

Lemma mono_removeLayer layers mt : mono (removeLayer layers mt).
Proof.
  induction layers as [|l rest IH]; cbn [removeLayer]; [apply mono_ret|].
  unfold Remove. repeat mono_step; done.
Qed.

Hint Resolve mono_fn mono_NewLayer' mono_removeLayer : mono.

Lemma mono_setTemplate layers t : mono (setTemplate layers t).
Proof. unfold setTemplate. repeat mono_step. Qed.

Lemma mono_setSystem layers t : mono (setSystem layers t).
Proof. unfold setSystem. repeat mono_step. Qed.

Lemma mono_setLicense layers t : mono (setLicense layers t).
Proof. unfold setLicense. repeat mono_step. Qed.

Lemma mono_loadParameters layers p : mono (loadParameters layers p).
Proof.
  revert p. induction layers as [|l rest IH]; intros p; cbn [loadParameters];
    repeat mono_step; done.
Qed.

Hint Resolve mono_loadParameters mono_setLicense : mono.

Lemma mono_setParameters layers p : mono (setParameters layers p).
Proof. unfold setParameters. repeat mono_step. Qed.

Lemma mono_setMessages layers m : mono (setMessages layers m).
Proof. unfold setMessages. repeat mono_step. Qed.

Lemma mono_setLicenses licenses layers : mono (setLicenses layers licenses).
Proof.
  revert layers. induction licenses as [|v rest IH]; intros layers;
    cbn [setLicenses]; repeat mono_step; done.
Qed.

Lemma mono_reportStatus layers : mono (reportStatus layers).
Proof.
  induction layers as [|l rest IH]; cbn [reportStatus]; repeat mono_step; done.
Qed.

End MonoCode.

#[local] Hint Resolve mono_fn mono_NewLayer' mono_removeLayer mono_setTemplate
  mono_setSystem mono_setLicense mono_setLicenses mono_loadParameters
  mono_setParameters mono_setMessages mono_reportStatus : mono.

(** ** What the overlays return *)

Ltac inv_bind H :=
  let a := fresh "a" in
  let s := fresh "s" in
  let Hm := fresh "Hm" in
  apply bind_Return in H as (a & s & Hm & H).

Ltac inv_ret H := injection H as <- <-.

Section Overlays.
Context `{Ext : Externals}.

Lemma removeLayer_inv layers mediatype s out s' :
  removeLayer layers mediatype s = (Return out, s') → out = others mediatype layers.
Proof.
  destruct (removeLayer_Return layers mediatype s) as [s1 Hs1].
  rewrite Hs1. by intros [= <- _].
Qed.

Lemma NewLayer'_Return content mediatype s layer s' :
  NewLayer' content mediatype s = (Return layer, s') →
  ∃ w, NewLayer content mediatype (world s) = (w, Ok layer)
       ∧ s' = mkState w (trace s ++ [Created content mediatype layer]).
Proof.
  unfold NewLayer', call, bind, emit.
  destruct (NewLayer content mediatype (world s)) as [w [l|e]]; cbn; [|done].
  intros [= <- <-]. by exists w.
Qed.

Lemma setTemplate_inv layers t s out s' :
  setTemplate layers t s = (Return out, s') →
  ∃ l, out = others mtTemplate layers ++ [l].
Proof.
  unfold setTemplate. intros H. inv_bind H.
  apply removeLayer_inv in Hm as ->.
  destruct (template_Parse t); [done|].
  inv_bind H. inv_ret H. by eexists.
Qed.

Lemma setSystem_inv layers t s out s' :
  setSystem layers t s = (Return out, s') →
  ∃ ls, out = others mtSystem layers ++ ls.
Proof.
  unfold setSystem. intros H. inv_bind H.
  apply removeLayer_inv in Hm as ->.
  destruct (decide (t ≠ "")).
  - inv_bind H. inv_ret H. by eexists.
  - inv_ret H. exists []. by rewrite app_nil_r.
Qed.

Lemma setLicense_inv layers t s out s' :
  setLicense layers t s = (Return out, s') → ∃ l, out = layers ++ [l].
Proof.
  unfold setLicense. intros H. inv_bind H. inv_ret H. by eexists.
Qed.

Lemma setLicenses_inv licenses layers s out s' :
  setLicenses layers licenses s = (Return out, s') → ∃ ls, out = layers ++ ls.
Proof.
  revert layers s. induction licenses as [|v rest IH]; intros layers s H;
    cbn [setLicenses] in H.
  - inv_ret H. exists []. by rewrite app_nil_r.
  - inv_bind H. apply setLicense_inv in Hm as [l ->].
    apply IH in H as [ls ->]. exists (l :: ls). by rewrite <-app_assoc.
Qed.

Lemma setParameters_inv layers p s out s' :
  setParameters layers p s = (Return out, s') →
  out = layers ∨ ∃ l, out = others mtParams layers ++ [l].
Proof.
  unfold setParameters. intros H. inv_bind H.
  destruct (decide (size a = 0%nat)).
  - inv_ret H. by left.
  - inv_bind H. apply removeLayer_inv in Hm0 as ->.
    inv_bind H. inv_bind H. inv_ret H. right. by eexists.
Qed.

Lemma setMessages_inv layers m s out s' :
  setMessages layers m s = (Return out, s') →
  out = layers ∨ ∃ l, out = others mtMessages layers ++ [l].
Proof.
  unfold setMessages. intros H.
  destruct (decide (List.length m = 0%nat)).
  - inv_ret H. by left.
  - inv_bind H. apply removeLayer_inv in Hm as ->.
    inv_bind H. inv_bind H. inv_ret H. right. by eexists.
Qed.

Lemma others_keeps mediatype layers (l : Layer) :
  l ∈ layers → MediaType l ≠ mediatype → l ∈ others mediatype layers.
Proof. intros. unfold others. by apply list_elem_of_filter. Qed.

End Overlays.

(** ** [createModel] *)

Section CreateModel.
Context `{Ext : Externals}.

Lemma mono_run {A} (m : M A) s o s' :
  mono m → m s = (o, s') → trace s `prefix_of` trace s'.
Proof. intros Hm Hs. specialize (Hm s). by rewrite Hs in Hm. Qed.

(** The loop over the base layers touches neither the store nor the trace:
    it ends with the quantization error or with every base layer appended. *)
Lemma createModel_base_pure r base config layers s :
  createModel_base r base config layers s = (Raise errQuantizeSource, s)
  ∨ ∃ config', createModel_base r base config layers s
               = (Return (config', layers ++ map lLayer base), s).
Proof.
  revert config layers. induction base as [|layer rest IH]; intros config layers.
  - right. exists config. cbn. by rewrite app_nil_r.
  - cbn [createModel_base map].
    replace (layers ++ lLayer layer :: map lLayer rest)
      with ((layers ++ [lLayer layer]) ++ map lLayer rest)
      by (by rewrite <-app_assoc).
    destruct (lGGML layer) as [ggml|]; cbn zeta.
    + destruct (decide _) as [_|_].
      * destruct (decide (FileType (GGML_KV ggml) ∈ ["F16"; "F32"])).
        -- apply (IH (aggregate config ggml)).
        -- by left.
      * apply (IH (aggregate config ggml)).
    + apply (IH config).
Qed.

Lemma createModel_base_rejects r base config layers s :
  quantizationRequested r = true →
  existsb alreadyQuantized base = true →
  createModel_base r base config layers s = (Raise errQuantizeSource, s).
Proof.
  intros Hq. apply negb_true_iff, bool_decide_eq_false in Hq.
  revert config layers. induction base as [|layer rest IH]; intros config layers Hex;
    [done|].
  cbn [existsb] in Hex. cbn [createModel_base].
  unfold alreadyQuantized in Hex at 1.
  destruct (lGGML layer) as [ggml|]; cbn zeta.
  - destruct (decide _) as [(_ & Hn & Hm)|Hno].
    + destruct (decide (FileType (GGML_KV ggml) ∈ ["F16"; "F32"])) as [Hin|Hout];
        [|done].
      rewrite (bool_decide_eq_true_2 _ Hin), andb_false_r in Hex.
      by apply (IH (aggregate config ggml)).
    + destruct (bool_decide_reflect (GGML_Name ggml = "gguf"));
        destruct (bool_decide_reflect (MediaType (lLayer layer) = mtModel));
        cbn in Hex; try by apply (IH (aggregate config ggml)).
      destruct Hno. split; [|done]. by rewrite ToUpper_empty.
  - by apply (IH config).
Qed.

Lemma createModel_base_no_metadata r base config layers s :
  Forall (λ l, lGGML l = None) base →
  createModel_base r base config layers s
  = (Return (config, layers ++ map lLayer base), s).
Proof.
  intros Hall. revert layers.
  induction Hall as [|layer rest Hl _ IH]; intros layers; cbn [createModel_base map].
  - by rewrite app_nil_r.
  - rewrite Hl.
    replace (layers ++ lLayer layer :: map lLayer rest)
      with ((layers ++ [lLayer layer]) ++ map lLayer rest)
      by (by rewrite <-app_assoc).
    apply IH.
Qed.

Lemma createConfigLayer_inv layers config s cl s' :
  createConfigLayer layers config s = (Return cl, s') →
  ∃ content,
    json_encode_config (withDiffIDs config (map Digest layers)) = Ok content
    ∧ trace s' = trace s ++ [Created content mtConfig cl].
Proof.
  unfold createConfigLayer. cbv zeta. intros H. inv_bind H.
  apply lift_Return in Hm as [Hc ->].
  apply NewLayer'_Return in H as (w & _ & ->). by exists a.
Qed.

Lemma createModel_inv r name base s s' :
  createModel r name base s = (Return (), s') →
  ∃ config l1 l2 l3 l4 l5 cl s5 s6 t,
    createModel_base r base initialConfig [] s = (Return (config, map lLayer base), s)
    ∧ (l1 = map lLayer base ∨ ∃ l, l1 = others mtTemplate (map lLayer base) ++ [l])
    ∧ (if decide (System r ≠ "") then ∃ ls, l2 = others mtSystem l1 ++ ls else l2 = l1)
    ∧ (∃ ls, l3 = l2 ++ ls)
    ∧ (l4 = l3 ∨ ∃ l, l4 = others mtParams l3 ++ [l])
    ∧ (l5 = l4 ∨ ∃ l, l5 = others mtMessages l4 ++ [l])
    ∧ createConfigLayer l5 config s5 = (Return cl, s6)
    ∧ trace s `prefix_of` trace s5
    ∧ trace s' = trace s6 ++ t ++ [Wrote name cl l5].
Proof.
  unfold createModel. intros H. inv_bind H. destruct a as [config l0].
  destruct (createModel_base_pure r base initialConfig [] s) as [Hb|[c Hb]];
    rewrite Hb in Hm; [done|]. injection Hm as <- <- <-.
  cbn [app] in *.
  inv_bind H. rename a into l1, s0 into s1, Hm into H1.
  inv_bind H. rename a into l2, s0 into s2, Hm into H2.
  inv_bind H. rename a into l3, s0 into s3, Hm into H3.
  inv_bind H. rename a into l4, s0 into s4, Hm into H4.
  inv_bind H. rename a into l5, s0 into s5, Hm into H5.
  inv_bind H. rename a into cl, s0 into s6, Hm into H6.
  inv_bind H. rename s0 into s7, Hm into H7. destruct a.
  inv_bind H. rename s0 into s8, Hm into H8. destruct a.
  exists c, l1, l2, l3, l4, l5, cl, s5, s6.
  assert (trace s `prefix_of` trace s5) as Hpre.
  { assert (trace s `prefix_of` trace s1) as P1
      by (apply (λ Hm, mono_run _ _ _ _ Hm H1); repeat mono_step).
    assert (trace s1 `prefix_of` trace s2) as P2
      by (apply (λ Hm, mono_run _ _ _ _ Hm H2); repeat mono_step).
    assert (trace s2 `prefix_of` trace s3) as P3
      by (apply (λ Hm, mono_run _ _ _ _ Hm H3); repeat mono_step).
    assert (trace s3 `prefix_of` trace s4) as P4
      by (apply (λ Hm, mono_run _ _ _ _ Hm H4); repeat mono_step).
    assert (trace s4 `prefix_of` trace s5) as P5
      by (apply (λ Hm, mono_run _ _ _ _ Hm H5); repeat mono_step).
    by repeat (etrans; [eassumption|]). }
  assert (∃ t, trace s' = trace s6 ++ t ++ [Wrote name cl l5]) as [t Ht].
  { destruct (mono_run _ _ _ _ (mono_reportStatus l5) H7) as [t7 Ht7].
    injection H8 as <-. unfold WriteManifest', bind, call_err in H. cbn in H.
    destruct (WriteManifest name cl l5 (world s7)) as [w [e|]]; [done|].
    injection H as <-. cbn. rewrite Ht7.
    exists (t7 ++ [Sent (Progress "writing manifest")]).
    by rewrite <-!app_assoc. }
  exists t. split; [done|]. split.
  { destruct (decide (Template r ≠ "")).
    - right. by apply setTemplate_inv in H1.
    - left. by inv_ret H1. }
  split.
  { destruct (decide (System r ≠ "")).
    - by apply setSystem_inv in H2.
    - by inv_ret H2. }
  split.
  { destruct (License r) as [[l|l]|].
    - destruct (decide (l ≠ "")).
      + apply setLicense_inv in H3 as [x ->]. by eexists.
      + inv_ret H3. exists []. by rewrite app_nil_r.
    - inv_bind H3. by apply setLicenses_inv in H3.
    - inv_ret H3. exists []. by rewrite app_nil_r. }
  split; [by apply setParameters_inv in H4|].
  split; [by apply setMessages_inv in H5|].
  done.
Qed.

End CreateModel.

(** ** Claims about [createModel] and the overlays *)

Section Claims.
Context `{Ext : Externals}.

(** C7: when the request names a quantization type and some base layer is
    a GGUF model layer whose file type is neither F16 nor F32, [createModel]
    returns the quantization error and leaves the store and the trace as
    they were: no layer has been created or removed, nothing has been
    reported and no manifest has been written. *)
Theorem createModel_rejects_quantized_source r name base s :
  quantizationRequested r = true →
  existsb alreadyQuantized base = true →
  createModel r name base s = (Raise errQuantizeSource, s).
Proof.
  intros Hq Hex. unfold createModel.
  apply bind_Raise. by apply createModel_base_rejects.
Qed.

(** C5, as amended: [kvFromLayers] fails with the no-base-model error when
    every base layer lacks GGUF metadata; [createModel] does not call it,
    and its loop over such base layers raises nothing, leaves the config as
    it was and hands every layer on to composition. *)
Theorem no_metadata_kv_fails_but_aggregation_passes r base config layers s :
  Forall (λ l, lGGML l = None) base →
  kvFromLayers base = Err errNoBaseModel
  ∧ createModel_base r base config layers s
    = (Return (config, layers ++ map lLayer base), s).
Proof.
  intros Hall. split; [|by apply createModel_base_no_metadata].
  induction Hall as [|l rest Hl _ IH]; cbn; [done|]. by rewrite Hl.
Qed.

(** C9: when [createModel] succeeds, the last thing it did was to write the
    manifest with a config layer and a list of layers; that config layer
    was created, during the same call, from the encoding of a config whose
    diff-IDs are exactly the digests of those layers, in order and in
    number. *)
Theorem config_diffIDs_are_layer_digests r name base s s' :
  createModel r name base s = (Return (), s') →
  ∃ config content configLayer layers t,
    trace s' = trace s ++ t
    ∧ last t = Some (Wrote name configLayer layers)
    ∧ Created content mtConfig configLayer ∈ t
    ∧ json_encode_config config = Ok content
    ∧ DiffIDs (CfgRootFS config) = map Digest layers
    ∧ List.length (DiffIDs (CfgRootFS config)) = List.length layers.
Proof.
  intros H. apply createModel_inv in H
    as (config & l1 & l2 & l3 & l4 & l5 & cl & s5 & s6 & t
        & _ & _ & _ & _ & _ & _ & Hc & [t5 Ht5] & Ht).
  apply createConfigLayer_inv in Hc as (content & Henc & Ht6).
  exists (withDiffIDs config (map Digest l5)), content, cl, l5,
    (t5 ++ [Created content mtConfig cl] ++ t ++ [Wrote name cl l5]).
  split; [by rewrite Ht, Ht6, Ht5, <-!app_assoc|].
  split; [by rewrite !app_assoc, last_snoc|].
  split; [rewrite !elem_of_app, list_elem_of_singleton; auto|].
  split; [done|]. split; [done|]. cbn. by rewrite length_map.
Qed.

(** C2, as amended: [setSystem] with an empty string removes every
    system-prompt layer and appends nothing; with a non-empty string it
    removes them and, when the new layer can be created, appends it (and
    returns the error otherwise).  [createModel] calls [setSystem] only for
    a non-empty system prompt: a request with an empty one writes a
    manifest that still holds every system-prompt layer of its base
    layers. *)
Theorem setSystem_clears_but_createModel_skips_empty :
  (∀ layers s, ∃ s',
      setSystem layers "" s = (Return (others mtSystem layers), s'))
  ∧ (∀ layers sys s, sys ≠ "" →
      ∃ s1, removeLayer layers mtSystem s = (Return (others mtSystem layers), s1)
            ∧ match NewLayer sys mtSystem (world s1) with
              | (w, Ok l) =>
                  setSystem layers sys s
                  = (Return (others mtSystem layers ++ [l]),
                     mkState w (trace s1 ++ [Created sys mtSystem l]))
              | (w, Err e) =>
                  setSystem layers sys s = (Raise e, mkState w (trace s1))
              end)
  ∧ (∀ r name base s s' configLayer layers,
      System r = "" →
      createModel r name base s = (Return (), s') →
      last (trace s') = Some (Wrote name configLayer layers) →
      ∀ b, b ∈ base → MediaType (lLayer b) = mtSystem → lLayer b ∈ layers).
Proof.
  split; [|split].
  - intros layers s. unfold setSystem.
    destruct (removeLayer_Return layers mtSystem s) as [s' Hs'].
    exists s'. by rewrite (bind_eq _ _ _ _ _ Hs').
  - intros layers sys s Hsys. unfold setSystem.
    destruct (removeLayer_Return layers mtSystem s) as [s1 Hs1].
    exists s1. split; [done|]. rewrite (bind_eq _ _ _ _ _ Hs1).
    destruct (decide (sys ≠ "")); [|done].
    unfold NewLayer', call, bind, emit.
    by destruct (NewLayer sys mtSystem (world s1)) as [w [l|e]].
  - intros r name base s s' cl layers Hsys H Hlast b Hb Hmt.
    apply createModel_inv in H
      as (config & l1 & l2 & l3 & l4 & l5 & cl' & s5 & s6 & t
          & _ & H1 & H2 & [ls3 H3] & H4 & H5 & _ & _ & Ht).
    rewrite Ht, !app_assoc, last_snoc in Hlast. injection Hlast as <- <-.
    rewrite Hsys in H2. destruct (decide ("" ≠ "")); [done|]. subst l2.
    assert (lLayer b ∈ l1) as Hin1.
    { destruct H1 as [->|[l ->]]; [by apply list_elem_of_fmap_2|].
      apply elem_of_app. left. apply others_keeps; [by apply list_elem_of_fmap_2|].
      by rewrite Hmt. }
    assert (lLayer b ∈ l3) as Hin3 by (subst l3; apply elem_of_app; by left).
    assert (lLayer b ∈ l4) as Hin4.
    { destruct H4 as [->|[l ->]]; [done|].
      apply elem_of_app. left. apply others_keeps; [done|]. by rewrite Hmt. }
    destruct H5 as [->|[l ->]]; [done|].
    apply elem_of_app. left. apply others_keeps; [done|]. by rewrite Hmt.
Qed.

End Claims.

(** ** [setParameters] *)

Section Parameters.
Context `{Ext : Externals}.

Lemma carryForward_lookup (existing : list (string * any)) (p : gmap string any) k :
  carryForward p existing !! k
  = match p !! k with
    | Some v => Some v
    | None => (list_to_map existing : gmap string any) !! k
    end.
Proof.
  revert p. induction existing as [|[k0 v0] rest IH]; intros p.
  - cbn. rewrite lookup_empty. by destruct (p !! k).
  - unfold carryForward in *. rewrite list_to_map_cons. cbn [foldl fst snd].
    rewrite IH.
    destruct (p !! k0) eqn:Hk0.
    + destruct (p !! k) eqn:Hk; [done|].
      rewrite lookup_insert_ne; [done|]. congruence.
    + destruct (decide (k0 = k)) as [->|Hne].
      * by rewrite Hk0, !lookup_insert_eq.
      * by rewrite !lookup_insert_ne.
Qed.

(** The inner loop computes the union in which the new map wins. *)
Lemma carryForward_union (p existing : gmap string any) :
  carryForward p (map_to_list existing) = p ∪ existing.
Proof.
  apply map_eq. intros k.
  rewrite carryForward_lookup, list_to_map_to_list, lookup_union.
  by destruct (p !! k), (existing !! k).
Qed.

Lemma union_absorb (p e : gmap string any) : p ∪ e ∪ e = p ∪ e.
Proof.
  apply map_eq. intros k. rewrite !lookup_union.
  by destruct (p !! k), (e !! k).
Qed.

Lemma loadParameters_stored layers p E s :
  allStore layers (world s) E →
  loadParameters layers p s
  = (Return (if hasParameters layers then p ∪ E else p), s).
Proof.
  intros Hall. revert p.
  induction Hall as [|l rest Hl _ IH]; intros p; [done|].
  cbn [loadParameters hasParameters existsb].
  destruct (decide (MediaType l ≠ mtParams)) as [Hne|Heq].
  - rewrite bool_decide_eq_false_2 by done. apply IH.
  - apply dec_stable in Heq. rewrite bool_decide_eq_true_2 by done.
    unfold bind at 1, read at 1. rewrite (Hl Heq). cbn.
    rewrite carryForward_union, IH.
    fold (hasParameters rest). destruct (hasParameters rest); [|done].
    by rewrite union_absorb.
Qed.

(** C8: for a layer set that holds a parameters layer, every parameters
    layer of which reads back as [E], and a supplied map [p]
    (nil counts as empty): the merged map keeps the value of [p] on every
    key of [p] and the value of [E] on every other key of [E]; when it is
    empty [setParameters] returns the layer set as it was and touches
    neither store nor trace; otherwise it removes the parameters layers and,
    when the merged map is encoded and the new layer created, returns the
    remaining layers followed by the layer created from the encoding of the
    merged map. *)
Theorem setParameters_merges layers p E s :
  hasParameters layers = true →
  allStore layers (world s) E →
  let P := default ∅ p in
  let merged := P ∪ E in
  (∀ k v, P !! k = Some v → merged !! k = Some v)
  ∧ (∀ k, P !! k = None → merged !! k = E !! k)
  ∧ (merged = ∅ → setParameters layers p s = (Return layers, s))
  ∧ (merged ≠ ∅ →
     ∃ s1, removeLayer layers mtParams s = (Return (others mtParams layers), s1)
           ∧ ∀ b w layer,
               json_encode_params merged = Ok b →
               NewLayer b mtParams (world s1) = (w, Ok layer) →
               setParameters layers p s
               = (Return (others mtParams layers ++ [layer]),
                  mkState w (trace s1 ++ [Created b mtParams layer]))).
Proof.
  intros Hhas Hall P merged.
  assert (setParameters layers p s
          = (if decide (size merged = 0%nat) then ret layers
             else
               do layers <- removeLayer layers mtParams;
               do b <- lift (json_encode_params merged);
               do layer <- NewLayer' b mtParams;
               ret (layers ++ [layer])) s) as Hrun.
  { unfold setParameters.
    replace (match p with Some p0 => p0 | None => ∅ end) with P by by destruct p.
    rewrite (bind_eq _ _ _ _ _ (loadParameters_stored layers P E s Hall)).
    by rewrite Hhas. }
  split; [|split; [|split]].
  - intros k v Hk. subst merged. rewrite lookup_union, Hk.
    by destruct (E !! k).
  - intros k Hk. subst merged. rewrite lookup_union, Hk.
    by destruct (E !! k).
  - intros Hempty. rewrite Hrun.
    destruct (decide (size merged = 0%nat)) as [_|Hsz]; [done|].
    destruct Hsz. by apply map_size_empty_iff.
  - intros Hne. rewrite Hrun.
    destruct (decide (size merged = 0%nat)) as [Hsz|_];
      [by apply map_size_empty_iff in Hsz|].
    destruct (removeLayer_Return layers mtParams s) as [s1 Hs1].
    exists s1. split; [done|]. intros b w layer Hb Hnew.
    rewrite (bind_eq _ _ _ _ _ Hs1), Hb. cbn.
    unfold NewLayer', call, bind, emit. by rewrite Hnew.
Qed.

End Parameters.

(** ** Conversion and the handler *)

Section Conversion.
Context `{Ext : Externals}.

(** Detection answers ["gguf"] only for a map that has an entry, so the
    test [len(files) == 0] under [case "gguf"] never holds. *)
Lemma detect_gguf_nonempty files w :
  detectModelType_range files files w = "gguf" → List.length files ≠ 0%nat.
Proof. by destruct files. Qed.

(** C3 (the code departs from it): on an empty files map
    [convertModelFromFiles] returns [errUnknownType], for base and adapter
    files alike, and not [errNoFilesProvided]. *)
Theorem convertModelFromFiles_empty_is_unknown_type fuel base isAdapter s :
  convertModelFromFiles fuel [] base isAdapter s = (Raise errUnknownType, s)
  ∧ errUnknownType ≠ errNoFilesProvided.
Proof. split; [reflexivity|discriminate]. Qed.

(** With a positive size the condition of the loop never changes: the loop
    stops only through an error of the layer constructors. *)
Lemma ggufLayers_loop_never_returns digest blob size fuel s s' :
  0 < size →
  ggufLayers_loop fuel digest blob size 0 s ≠ (Return (), s').
Proof.
  intros Hsize. revert s. induction fuel as [|fuel IH]; intros s H;
    cbn [ggufLayers_loop] in H; destruct (decide (0 < size)); try done.
  inv_bind H. inv_bind H. by apply IH in H.
Qed.

(** Where the blob can be linked under its digest, as it can whenever the
    caller names a stored blob, no iteration fails and the loop spins. *)
Lemma ggufLayers_loop_spins digest blob size layer w :
  digest ≠ "" → 0 < size → Digest layer ≠ "" →
  NewLayerFromLayer digest mtModel (File_Name blob) w = (w, Ok layer) →
  ∀ fuel s, world s = w →
    (ggufLayers_loop fuel digest blob size 0 s).1 = Diverge.
Proof.
  intros Hd Hsize Hl Hnew. induction fuel as [|fuel IH]; intros s Hw;
    cbn [ggufLayers_loop]; destruct (decide (0 < size)); try done.
  destruct (decide (digest ≠ "" ∧ 0 = 0)) as [_|[]]; [|done].
  unfold NewLayerFromLayer', call, bind at 1 2 3. rewrite Hw, Hnew. cbn.
  destruct (decide (Digest layer = "")); [done|]. cbn.
  by apply IH.
Qed.

Lemma bind_Diverge {A B} (m : M A) (k : A → M B) s :
  (m s).1 = Diverge → (bind m k s).1 = Diverge.
Proof. unfold bind. by destruct (m s) as [[a|e|] s1]. Qed.

Lemma ggufLayers_spins digest path blob size layer s :
  GetBlobsPath digest = Ok path →
  os_Open path (world s) = Ok blob →
  detectContentType (File_Section blob 0 512 (world s)) = Ok "gguf" →
  File_Stat_Size blob (world s) = Ok size →
  0 < size → digest ≠ "" → Digest layer ≠ "" →
  NewLayerFromLayer digest mtModel (File_Name blob) (world s) = (world s, Ok layer) →
  ∀ fuel, (ggufLayers fuel digest s).1 = Diverge.
Proof.
  intros Hpath Hopen Hct Hstat Hsize Hd Hl Hnew fuel.
  unfold ggufLayers. cbv zeta.
  erewrite bind_eq by reflexivity. rewrite Hpath.
  erewrite bind_eq by reflexivity.
  erewrite bind_eq by reflexivity. cbn [world]. rewrite Hopen.
  erewrite bind_eq by reflexivity.
  erewrite bind_eq by reflexivity. cbn [world]. rewrite Hct.
  erewrite bind_eq by reflexivity.
  destruct (decide ("gguf" ≠ "gguf")); [done|].
  erewrite bind_eq by reflexivity. cbn [world]. rewrite Hstat.
  erewrite bind_eq by reflexivity.
  apply bind_Diverge. by eapply ggufLayers_loop_spins.
Qed.

(** C4 (the code departs from it): for a source blob that is found, opens,
    and has a positive size, [ggufLayers] returns no layers however much
    fuel it is given: it ends with an error or is still in its loop. *)
Theorem ggufLayers_positive_size_never_returns digest path blob size s :
  GetBlobsPath digest = Ok path →
  os_Open path (world s) = Ok blob →
  File_Stat_Size blob (world s) = Ok size →
  0 < size →
  ∀ fuel layers s', ggufLayers fuel digest s ≠ (Return layers, s').
Proof.
  intros Hpath Hopen Hstat Hsize fuel layers s' H.
  unfold ggufLayers in H. cbv zeta in H.
  inv_bind H. apply emit_Return in Hm as ->.
  inv_bind H. apply lift_Return in Hm as [Hp ->].
  rewrite Hpath in Hp. injection Hp as <-.
  inv_bind H. apply read_Return in Hm as [-> ->]. cbn [world] in H.
  rewrite Hopen in H.
  inv_bind H. apply lift_Return in Hm as [[= <-] ->].
  inv_bind H. apply read_Return in Hm as [-> ->].
  inv_bind H. apply lift_Return in Hm as [_ ->].
  destruct (decide (_ ≠ "gguf")); [done|].
  inv_bind H. apply read_Return in Hm as [-> ->]. cbn [world] in H.
  rewrite Hstat in H.
  inv_bind H. apply lift_Return in Hm as [[= <-] ->].
  inv_bind H.
  match type of Hm with
  | ggufLayers_loop _ _ _ _ _ _ = (Return ?u, _) => destruct u
  end.
  by apply ggufLayers_loop_never_returns in Hm.
Qed.

(** C6 (the code departs from it): whatever error the conversion of the
    adapter files returns, of a known kind or not, the goroutine sends it
    with the status 400 and returns. *)
Theorem adapter_failure_is_always_bad_request fuel r adapters base e s s' :
  Adapters r = Some adapters →
  convertModelFromFiles fuel adapters base true s = (Raise e, s') →
  CreateHandler_adapters fuel r base s
  = (Return None,
     mkState (world s')
       (trace s' ++ [Sent (ErrorMsg (Error e) (Some StatusBadRequest))])).
Proof.
  intros Had Hconv. unfold CreateHandler_adapters. rewrite Had.
  unfold bind at 1, catch. rewrite Hconv.
  by destruct (existsb _ _).
Qed.

(** An error of [parseFromModel] is sent, and the goroutine goes on with
    no base layers. *)
Lemma source_error_goes_on fuel r w e s :
  From r ≠ "" →
  IsValid (ParseName (From r)) = true →
  parseFromModel (ParseName (From r)) (world s) = (w, [], Err e) →
  CreateHandler_source fuel r s
  = (Return (Some []), mkState w (trace s ++ [Sent (ErrorMsg (Error e) None)])).
Proof.
  intros Hfrom Hvalid Hparse. unfold CreateHandler_source.
  destruct (decide (From r ≠ "")); [|done]. rewrite Hvalid. cbn [negb].
  unfold bind at 1, parseFromModel'. rewrite Hparse. cbn.
  by rewrite app_nil_r.
Qed.

(** An error of pruning is sent, and the success event follows it. *)
Lemma prune_error_then_success r name old base s s1 w e :
  createModel r name base s = (Return (), s1) →
  NoPrune (world s1) = false →
  RemoveLayers old (world s1) = (w, Some e) →
  CreateHandler_create r name (Some old) base [] s
  = (Return (),
     mkState w (trace s1 ++ [Pruned old; Sent (ErrorMsg (Error e) None);
                             Sent (Progress "success")])).
Proof.
  intros Hcreate Hno Hprune. unfold CreateHandler_create. cbn [List.length Nat.ltb Nat.leb].
  unfold bind at 1, catch. rewrite Hcreate.
  unfold bind at 1, read at 1. rewrite Hno. cbn [negb].
  unfold RemoveLayers', call_err, send, emit, bind. cbn.
  rewrite Hprune. cbn. by rewrite <-!app_assoc.
Qed.

End Conversion.

(** ** Runs on the in-memory store *)

Section Runs.
Import Mem.

(** C1 (the code departs from it): a request whose source model cannot be
    resolved.  The goroutine sends the error of [parseFromModel], does not
    return, creates a model without layers and sends the success event:
    two terminal events, and progress after the error. *)
Theorem error_event_is_followed_by_success :
  match CreateHandler (Ext := ext) 0 (Bound reqFromMissing) emptyStore with
  | Streaming (o, s) =>
      o = Return ()
      ∧ sent (trace s)
        = [ErrorMsg "pull model manifest: file does not exist" None;
           Progress "writing manifest";
           Progress "success"]
      ∧ List.length (List.filter isTerminal (sent (trace s))) = 2%nat
      ∧ manifests (world s) !! "m"
        = Some (created "|||||amd64|linux|layers|" mtConfig, [])
  | Aborted _ _ => False
  end.
Proof. vm_compute. repeat split. Qed.

(** C2 as the specification states it fails: the request has an empty
    system prompt, and the one manifest written for it holds the
    system-prompt layer of its base model. *)
Lemma empty_system_prompt_keeps_system_layer :
  System reqFromBase = ""
  ∧ (createModel reqFromBase "m" baseLayers (start baseStore)).1 = Return ()
  ∧ wrote (trace (createModel reqFromBase "m" baseLayers (start baseStore)).2)
    = [(created createdConfig mtConfig, createdLayers)]
  ∧ systemLayer ∈ createdLayers
  ∧ MediaType systemLayer = mtSystem.
Proof.
  split; [reflexivity|]. split; [vm_compute; reflexivity|].
  split; [vm_compute; reflexivity|].
  split; [|reflexivity]. apply list_elem_of_In. cbn. auto.
Qed.

Lemma setSystem_clears_but_createModel_skips_empty_witness :
  System reqFromBase = ""
  ∧ (createModel reqFromBase "m" baseLayers (start baseStore)).1 = Return ()
  ∧ ∃ configLayer layers,
      last (trace (createModel reqFromBase "m" baseLayers (start baseStore)).2)
      = Some (Wrote ("m" : @Name ext) configLayer layers)
      ∧ systemLayer ∈ layers.
Proof.
  assert ((createModel reqFromBase "m" baseLayers (start baseStore)).1 = Return ())
    as Hrun by (vm_compute; reflexivity).
  split; [reflexivity|]. split; [exact Hrun|].
  apply run_eta in Hrun.
  destruct (createModel_inv _ _ _ _ _ Hrun)
    as (config & l1 & l2 & l3 & l4 & l5 & cl & s5 & s6 & t & Hinv).
  assert (last (trace (createModel reqFromBase "m" baseLayers (start baseStore)).2)
          = Some (Wrote ("m" : @Name ext) cl l5)) as Hlast.
  { destruct Hinv as (_ & _ & _ & _ & _ & _ & _ & _ & ->).
    by rewrite !app_assoc, last_snoc. }
  exists cl, l5. split; [exact Hlast|].
  apply (proj2 (proj2 (setSystem_clears_but_createModel_skips_empty (Ext := ext)))
           reqFromBase "m" baseLayers _ _ _ _ eq_refl Hrun Hlast
           (mkLayerGGML systemLayer None)).
  - apply list_elem_of_In. cbn. auto.
  - reflexivity.
Defined.

(** C5 as the specification states it fails: no base layer carries
    metadata, and [createModel] returns without an error after writing the
    manifest. *)
Lemma no_metadata_manifest_is_written :
  Forall (λ l, lGGML l = None) plainLayers
  ∧ (createModel reqFromBase "m" plainLayers (start baseStore)).1 = Return ()
  ∧ (createModel reqFromBase "m" plainLayers (start baseStore)).1
    ≠ Raise errNoBaseModel
  ∧ wrote (trace (createModel reqFromBase "m" plainLayers (start baseStore)).2)
    = [(created plainConfig mtConfig, [systemLayer])]
  ∧ manifests (world (createModel reqFromBase "m" plainLayers (start baseStore)).2)
    !! "m"
    = Some (created plainConfig mtConfig, [systemLayer]).
Proof.
  split; [by repeat constructor|]. split; [vm_compute; reflexivity|].
  split; [vm_compute; discriminate|].
  split; vm_compute; reflexivity.
Qed.

Lemma no_metadata_kv_fails_but_aggregation_passes_witness :
  Forall (λ l, lGGML l = None) plainLayers
  ∧ kvFromLayers plainLayers = Err errNoBaseModel
  ∧ createModel_base reqFromBase plainLayers initialConfig [] (start baseStore)
    = (Return (initialConfig, [] ++ map lLayer plainLayers), start baseStore).
Proof.
  assert (Forall (λ l, lGGML l = None) plainLayers) as Hall
    by (by repeat constructor).
  split; [exact Hall|].
  exact (no_metadata_kv_fails_but_aggregation_passes (Ext := ext)
           reqFromBase plainLayers initialConfig [] (start baseStore) Hall).
Defined.

Lemma createModel_rejects_quantized_source_witness :
  quantizationRequested reqQuantize = true
  ∧ existsb alreadyQuantized baseLayers = true
  ∧ createModel reqQuantize "m" baseLayers (start baseStore)
    = (Raise errQuantizeSource, start baseStore).
Proof.
  split; [reflexivity|]. split; [reflexivity|].
  apply (createModel_rejects_quantized_source (Ext := ext)); reflexivity.
Defined.

Lemma config_diffIDs_are_layer_digests_witness :
  (createModel reqFromBase "m" baseLayers (start baseStore)).1 = Return ()
  ∧ ∃ config content configLayer layers (t : list (@Effect ext)),
      trace (createModel reqFromBase "m" baseLayers (start baseStore)).2
      = trace (start baseStore) ++ t
      ∧ last t = Some (Wrote ("m" : @Name ext) configLayer layers)
      ∧ Created content mtConfig configLayer ∈ t
      ∧ @json_encode_config ext config = Ok content
      ∧ DiffIDs (CfgRootFS config) = map Digest layers
      ∧ List.length (DiffIDs (CfgRootFS config)) = List.length layers.
Proof.
  assert ((createModel reqFromBase "m" baseLayers (start baseStore)).1 = Return ())
    as Hrun by (vm_compute; reflexivity).
  split; [exact Hrun|].
  exact (config_diffIDs_are_layer_digests (Ext := ext) _ _ _ _ _
           (run_eta _ _ Hrun)).
Defined.

Lemma ggufLayers_positive_size_never_returns_witness :
  @GetBlobsPath ext (digestOf "GGUFQ4_0") = Ok (blobsDir +:+ digestOf "GGUFQ4_0")
  ∧ @os_Open ext (blobsDir +:+ digestOf "GGUFQ4_0") baseStore = Ok (digestOf "GGUFQ4_0")
  ∧ @File_Stat_Size ext (digestOf "GGUFQ4_0") baseStore = Ok 8
  ∧ 0 < 8
  ∧ ∀ fuel layers s',
      ggufLayers fuel (digestOf "GGUFQ4_0") (start baseStore) ≠ (Return layers, s').
Proof.
  assert (@os_Open ext (blobsDir +:+ digestOf "GGUFQ4_0") baseStore
          = Ok (digestOf "GGUFQ4_0")) as Hopen by (vm_compute; reflexivity).
  assert (@File_Stat_Size ext (digestOf "GGUFQ4_0") baseStore = Ok 8) as Hstat
    by (vm_compute; reflexivity).
  split; [reflexivity|]. split; [exact Hopen|]. split; [exact Hstat|].
  split; [reflexivity|].
  exact (ggufLayers_positive_size_never_returns (Ext := ext)
           (digestOf "GGUFQ4_0") _ _ 8 (start baseStore)
           eq_refl Hopen Hstat eq_refl).
Defined.

Lemma adapter_failure_is_always_bad_request_witness :
  Adapters reqAdapter = Some [("lora.gguf", digestOf "absent")]
  ∧ (convertModelFromFiles 0 [("lora.gguf", digestOf "absent")] baseLayers true
       (start baseStore)).1
    = Raise (Opaque "open /blobs/sha256:absent: no such file or directory")
  ∧ existsb (errors_Is (Opaque "open /blobs/sha256:absent: no such file or directory"))
      [NoFilesProvided; OnlyOneAdapterSupported; OnlyGGUFSupported; UnknownType]
    = false
  ∧ sent (trace (CreateHandler_adapters 0 reqAdapter baseLayers (start baseStore)).2)
    = [Progress "parsing GGUF";
       ErrorMsg "open /blobs/sha256:absent: no such file or directory"
         (Some StatusBadRequest)]
  ∧ CreateHandler_adapters 0 reqAdapter baseLayers (start baseStore)
    = (Return None,
       mkState
         (world (convertModelFromFiles 0 [("lora.gguf", digestOf "absent")]
                   baseLayers true (start baseStore)).2)
         (trace (convertModelFromFiles 0 [("lora.gguf", digestOf "absent")]
                   baseLayers true (start baseStore)).2
          ++ [Sent (ErrorMsg
                      (@Error ext
                         (Opaque "open /blobs/sha256:absent: no such file or directory"))
                      (Some StatusBadRequest))])).
Proof.
  assert ((convertModelFromFiles 0 [("lora.gguf", digestOf "absent")] baseLayers true
             (start baseStore)).1
          = Raise (Opaque "open /blobs/sha256:absent: no such file or directory"))
    as Hconv by (vm_compute; reflexivity).
  split; [reflexivity|]. split; [exact Hconv|]. split; [reflexivity|].
  split; [vm_compute; reflexivity|].
  exact (adapter_failure_is_always_bad_request (Ext := ext) 0 reqAdapter
           _ baseLayers _ (start baseStore) _ eq_refl (run_eta _ _ Hconv)).
Defined.

(** The same request through the handler: the internal error of [os.Open]
    is the last event, with the status 400. *)
Example adapter_internal_error_run :
  match CreateHandler (Ext := ext) 0 (Bound reqAdapter) baseStore with
  | Streaming (o, s) =>
      o = Return ()
      ∧ sent (trace s)
        = [Progress "parsing GGUF";
           ErrorMsg "open /blobs/sha256:absent: no such file or directory"
             (Some StatusBadRequest)]
      ∧ manifests (world s) !! "m" = None
  | Aborted _ _ => False
  end.
Proof. vm_compute. repeat split. Qed.

Lemma setParameters_merges_witness :
  hasParameters [modelLayer; paramsLayer] = true
  ∧ allStore (Ext := ext) [modelLayer; paramsLayer] baseStore {[ "a" := "1" ]}
  ∧ (({[ "b" := "2" ]} ∪ {[ "a" := "1" ]} : gmap string string) !! "b" = Some "2")
  ∧ (({[ "b" := "2" ]} ∪ {[ "a" := "1" ]} : gmap string string) !! "a"
     = ({[ "a" := "1" ]} : gmap string string) !! "a")
  ∧ (setParameters (Ext := ext) [modelLayer; paramsLayer] (Some {[ "b" := "2" ]})
       (start baseStore)).1
    = Return [modelLayer; created "a=1;b=2;" mtParams].
Proof.
  assert (allStore (Ext := ext) [modelLayer; paramsLayer] baseStore {[ "a" := "1" ]})
    as Hall.
  { unfold allStore. constructor; [discriminate|].
    constructor; [|constructor]. intros _. vm_compute. reflexivity. }
  destruct (setParameters_merges (Ext := ext) [modelLayer; paramsLayer]
              (Some {[ "b" := "2" ]}) {[ "a" := "1" ]} (start baseStore)
              eq_refl Hall) as (Hnew & Hold & _ & _).
  split; [reflexivity|]. split; [exact Hall|].
  split; [apply Hnew; reflexivity|]. split; [apply Hold; reflexivity|].
  vm_compute. reflexivity.
Defined.

(** The 8-byte GGUF blob of the store: [ggufLayers] is still in its loop
    after any number of iterations. *)
Example ggufLayers_spins_on_stored_blob fuel :
  (ggufLayers fuel (digestOf "GGUFQ4_0") (start baseStore)).1 = Diverge.
Proof.
  apply (ggufLayers_spins (Ext := ext) (digestOf "GGUFQ4_0")
           (blobsDir +:+ digestOf "GGUFQ4_0") (digestOf "GGUFQ4_0") 8
           (reused "GGUFQ4_0" mtModel));
    try discriminate; vm_compute; reflexivity.
Qed.

(** The merge law of the specification: parameters [{a: 1}], then an update
    with [{b: 2}], then one with [{a: 3}]. *)
Example parameters_merge_law :
  let m1 := setParameters (Ext := ext) [modelLayer] (Some {[ "a" := "1" ]})
              (start emptyStore) in
  let m2 := thenParameters {[ "b" := "2" ]} m1 in
  let m3 := thenParameters {[ "a" := "3" ]} m2 in
  effective m1 = Some (Ok {[ "a" := "1" ]})
  ∧ effective m2 = Some (Ok {[ "a" := "1"; "b" := "2" ]})
  ∧ effective m3 = Some (Ok {[ "a" := "3"; "b" := "2" ]}).
Proof. vm_compute. repeat split. Qed.

End Runs.

(** * Further properties of the code *)

(** ** Accounting for the effects *)

Section Adds.
Context `{Ext : Externals}.

Lemma adds_ret {A} Q (a : A) : adds Q (ret a).
Proof. intros s. exists []. by rewrite app_nil_r. Qed.

Lemma adds_raise {A} Q e : adds Q (@raise _ A e).
Proof. intros s. exists []. by rewrite app_nil_r. Qed.

Lemma adds_lift {A} Q (r : result A) : adds Q (lift r).
Proof. destruct r; [apply adds_ret | apply adds_raise]. Qed.

Lemma adds_read {A} Q (f : World → A) : adds Q (read f).
Proof. intros s. exists []. by rewrite app_nil_r. Qed.

Lemma adds_emit (Q : Effect → Prop) e : Q e → adds Q (emit e).
Proof. intros He s. exists [e]. split; [done|]. by constructor. Qed.

Lemma adds_call {A} Q (f : World → World * result A) : adds Q (call f).
Proof.
  intros s. exists []. rewrite app_nil_r. split; [|done].
  unfold call. by destruct (f (world s)) as [w [a|e]].
Qed.

Lemma adds_call_err Q f : adds Q (call_err f).
Proof.
  intros s. exists []. rewrite app_nil_r. split; [|done].
  unfold call_err. by destruct (f (world s)) as [w r].
Qed.

Lemma adds_bind {A B} Q (m : M A) (k : A → M B) :
  adds Q m → (∀ a, adds Q (k a)) → adds Q (bind m k).
Proof.
  intros Hm Hk s. unfold bind. destruct (Hm s) as (t1 & Ht1 & HQ1).
  destruct (m s) as [[a|e|] s1]; cbn in *; try by exists t1.
  destruct (Hk a s1) as (t2 & Ht2 & HQ2). exists (t1 ++ t2).
  split; [by rewrite Ht2, Ht1, app_assoc|]. by apply Forall_app.
Qed.

Lemma adds_weaken {A} (Q Q' : Effect → Prop) (m : M A) :
  (∀ e, Q e → Q' e) → adds Q m → adds Q' m.
Proof.
  intros HQ Hm s. destruct (Hm s) as (t & Ht & Hall). exists t.
  split; [done|]. eapply Forall_impl; eauto.
Qed.

Lemma adds_run {A} Q (m : M A) s o s' :
  adds Q m → m s = (o, s') → ∃ t, trace s' = trace s ++ t ∧ Forall Q t.
Proof. intros Hm Hs. specialize (Hm s). by rewrite Hs in Hm. Qed.

Lemma sent_app (t1 t2 : list Effect) : sent (t1 ++ t2) = sent t1 ++ sent t2.
Proof. apply omap_app. Qed.

Lemma wrote_app (t1 t2 : list Effect) : wrote (t1 ++ t2) = wrote t1 ++ wrote t2.
Proof. apply omap_app. Qed.

Lemma storeEffect_silent t :
  Forall storeEffect t → sent t = [] ∧ wrote t = [].
Proof.
  induction 1 as [|e t He _ [IH1 IH2]]; [done|].
  by destruct e; cbn in *.
Qed.

End Adds.

Create HintDb adds.

#[local] Hint Resolve adds_ret adds_raise adds_lift adds_read adds_call
  adds_call_err : adds.

Ltac adds_step :=
  match goal with
  | |- adds _ (bind _ _) => apply adds_bind; [|intros ?]
  | |- adds _ (emit _) => apply adds_emit; exact I
  | |- adds _ (match ?x with _ => _ end) => destruct x
  | |- adds _ (let _ := _ in _) => cbv zeta
  | |- adds _ _ => solve [auto with adds]
  end.

Section AddsCode.
Context `{Ext : Externals}.

Lemma adds_NewLayer' c mt : adds storeEffect (NewLayer' c mt).
Proof. unfold NewLayer'. repeat adds_step. Qed.

Lemma adds_removeLayer layers mt : adds removalEffect (removeLayer layers mt).
Proof.
  induction layers as [|l rest IH]; cbn [removeLayer]; [apply adds_ret|].
  unfold Remove. repeat adds_step; done.
Qed.

Lemma adds_removeLayer_store layers mt : adds storeEffect (removeLayer layers mt).
Proof.
  eapply adds_weaken; [|apply adds_removeLayer]. by intros [].
Qed.

Hint Resolve adds_NewLayer' adds_removeLayer_store : adds.

Lemma adds_setTemplate layers t : adds storeEffect (setTemplate layers t).
Proof. unfold setTemplate. repeat adds_step. Qed.

Lemma adds_setSystem layers t : adds storeEffect (setSystem layers t).
Proof. unfold setSystem. repeat adds_step. Qed.

Lemma adds_setLicense layers t : adds storeEffect (setLicense layers t).
Proof. unfold setLicense. repeat adds_step. Qed.

Lemma adds_loadParameters layers p : adds storeEffect (loadParameters layers p).
Proof.
  revert p. induction layers as [|l rest IH]; intros p; cbn [loadParameters];
    repeat adds_step; done.
Qed.

Hint Resolve adds_loadParameters adds_setLicense : adds.

Lemma adds_setParameters layers p : adds storeEffect (setParameters layers p).
Proof. unfold setParameters. repeat adds_step. Qed.

Lemma adds_setMessages layers m : adds storeEffect (setMessages layers m).
Proof. unfold setMessages. repeat adds_step. Qed.

Lemma adds_setLicenses licenses layers :
  adds storeEffect (setLicenses layers licenses).
Proof.
  revert layers. induction licenses as [|v rest IH]; intros layers;
    cbn [setLicenses]; repeat adds_step; done.
Qed.

Lemma adds_createConfigLayer layers config :
  adds storeEffect (createConfigLayer layers config).
Proof. unfold createConfigLayer. repeat adds_step. Qed.

Lemma adds_createModel_base r base config layers :
  adds storeEffect (createModel_base r base config layers).
Proof.
  intros s. exists []. rewrite app_nil_r. split; [|done].
  by destruct (createModel_base_pure r base config layers s) as [->|[c ->]].
Qed.

Hint Resolve adds_setTemplate adds_setSystem adds_setLicenses adds_setParameters
  adds_setMessages adds_createConfigLayer adds_createModel_base : adds.

Lemma adds_createModel_front r base : adds storeEffect (createModel_front r base).
Proof. unfold createModel_front. repeat adds_step. Qed.

End AddsCode.

(** ** What [createModel] reports and writes *)

Section CreateModelEffects.
Context `{Ext : Externals}.

Lemma bind_assoc {A B C} (m : M A) (k : A → M B) (h : B → M C) s :
  bind (bind m k) h s = bind m (λ a, bind (k a) h) s.
Proof. unfold bind. by destruct (m s) as [[a|e|] s1]. Qed.

Lemma bind_cong {A B} (m : M A) (k k' : A → M B) s :
  (∀ a s1, k a s1 = k' a s1) → bind m k s = bind m k' s.
Proof. intros Hk. unfold bind. by destruct (m s) as [[a|e|] s1]. Qed.

Lemma createModel_split r name base s :
  createModel r name base s
  = bind (createModel_front r base)
      (λ '(layers, configLayer),
         reportStatus layers;;
         fn "writing manifest";;
         WriteManifest' name configLayer layers) s.
Proof.
  unfold createModel, createModel_front.
  rewrite bind_assoc. apply bind_cong. intros [config l0] s0.
  do 6 (rewrite bind_assoc; apply bind_cong; intros ? ?).
  reflexivity.
Qed.

Lemma reportStatus_run layers s :
  reportStatus layers s
  = (Return (), mkState (world s) (trace s ++ map Sent (statusEvents layers))).
Proof.
  revert s. induction layers as [|l rest IH]; intros [w t].
  - cbn. by rewrite app_nil_r.
  - cbn [reportStatus]. unfold statusEvents in *. cbn [map].
    rewrite filter_cons. destruct (decide (status l ≠ "")).
    + unfold fn, emit, bind at 1. cbn. rewrite IH. cbn.
      by rewrite <-app_assoc.
    + unfold bind at 1, ret. cbn. by rewrite IH.
Qed.


Lemma wrote_Sent (l : list ChanMsg) : wrote (map Sent l) = [].
Proof. by induction l. Qed.

(** The trace of a call of [createModel]: store effects; then, if the
    config layer was created, the statuses and the manifest message; then,
    if the manifest was written, its record. *)
Lemma createModel_trace r name base s :
  ∃ t0, Forall storeEffect t0
    ∧ match (createModel r name base s).1 with
      | Return _ =>
          ∃ layers configLayer,
            trace (createModel r name base s).2
            = trace s ++ t0 ++ map Sent (statusEvents layers)
              ++ [Sent (Progress "writing manifest");
                  Wrote name configLayer layers]
      | _ =>
          trace (createModel r name base s).2 = trace s ++ t0
          ∨ ∃ layers,
              trace (createModel r name base s).2
              = trace s ++ t0 ++ map Sent (statusEvents layers)
                ++ [Sent (Progress "writing manifest")]
      end.
Proof.
  rewrite createModel_split.
  destruct (adds_createModel_front r base s) as (t0 & Ht0 & Hall).
  exists t0. split; [done|].
  destruct (createModel_front r base s) as [[[layers cl]|e|] s1] eqn:Hfront;
    cbn in Ht0.
  - rewrite (bind_eq _ _ _ _ _ Hfront).
    rewrite (bind_eq _ _ _ _ _ (reportStatus_run layers s1)).
    erewrite bind_eq by reflexivity.
    unfold WriteManifest', call_err, bind. cbn [world trace].
    destruct (WriteManifest name cl layers (world s1)) as [w [e|]]; cbn.
    + right. exists layers. by rewrite Ht0, <-!app_assoc.
    + exists layers, cl. by rewrite Ht0, <-!app_assoc.
  - rewrite (bind_Raise _ _ _ _ _ Hfront). by left.
  - unfold bind. rewrite Hfront. by left.
Qed.

(** X1: a call of [createModel] writes at most one manifest.  When it
    returns, the trace has gained exactly one manifest write, as its last
    effect and under the name it was called with; when it fails, it has
    gained none. *)
Theorem createModel_writes_one_manifest_or_none r name base s :
  match (createModel r name base s).1 with
  | Return _ =>
      ∃ configLayer layers,
        wrote (trace (createModel r name base s).2)
        = wrote (trace s) ++ [(configLayer, layers)]
        ∧ last (trace (createModel r name base s).2)
          = Some (Wrote name configLayer layers)
  | _ => wrote (trace (createModel r name base s).2) = wrote (trace s)
  end.
Proof.
  destruct (createModel_trace r name base s) as (t0 & Hall & H).
  apply storeEffect_silent in Hall as [_ Hw].
  destruct ((createModel r name base s).1) as [[]|e|].
  - destruct H as (layers & cl & ->). exists cl, layers. split.
    + rewrite !wrote_app, Hw, wrote_Sent. by cbn.
    + by rewrite (app_assoc _ _ [_; _]), (app_assoc _ _ [_; _]),
        (cons_middle (Sent _)), !app_assoc, last_snoc.
  - destruct H as [->|[layers ->]]; rewrite !wrote_app, Hw, ?wrote_Sent;
      cbn; by rewrite ?app_nil_r.
  - destruct H as [->|[layers ->]]; rewrite !wrote_app, Hw, ?wrote_Sent;
      cbn; by rewrite ?app_nil_r.
Qed.


End CreateModelEffects.

(** ** Which layers [createModel] keeps *)

Section Kept.
Context `{Ext : Externals}.

Lemma createModel_front_inv r base s layers configLayer s' :
  createModel_front r base s = (Return (layers, configLayer), s') →
  ∃ l1 l2 l3 l4,
    (if decide (Template r ≠ "")
     then ∃ l, l1 = others mtTemplate (map lLayer base) ++ [l]
     else l1 = map lLayer base)
    ∧ (if decide (System r ≠ "")
       then ∃ ls, l2 = others mtSystem l1 ++ ls
       else l2 = l1)
    ∧ (∃ ls, l3 = l2 ++ ls)
    ∧ (l4 = l3 ∨ ∃ l, l4 = others mtParams l3 ++ [l])
    ∧ (if decide (List.length (Messages r) = 0%nat)
       then layers = l4
       else ∃ l, layers = others mtMessages l4 ++ [l]).
Proof.
  unfold createModel_front. intros H. inv_bind H. destruct a as [config l0].
  destruct (createModel_base_pure r base initialConfig [] s) as [Hb|[c Hb]];
    rewrite Hb in Hm; [done|]. injection Hm as <- <- <-. cbn [app] in *.
  inv_bind H. rename a into l1, Hm into H1.
  inv_bind H. rename a into l2, Hm into H2.
  inv_bind H. rename a into l3, Hm into H3.
  inv_bind H. rename a into l4, Hm into H4.
  inv_bind H. rename a into l5, Hm into H5.
  inv_bind H. rename Hm into H6. injection H as <- <- <-.
  exists l1, l2, l3, l4. split.
  { destruct (decide (Template r ≠ "")).
    - by apply setTemplate_inv in H1.
    - by inv_ret H1. }
  split.
  { destruct (decide (System r ≠ "")).
    - by apply setSystem_inv in H2.
    - by inv_ret H2. }
  split.
  { destruct (License r) as [[l|l]|].
    - destruct (decide (l ≠ "")).
      + apply setLicense_inv in H3 as [x ->]. by eexists.
      + inv_ret H3. exists []. by rewrite app_nil_r.
    - inv_bind H3. by apply setLicenses_inv in H3.
    - inv_ret H3. exists []. by rewrite app_nil_r. }
  split; [by apply setParameters_inv in H4|].
  unfold setMessages in H5. destruct (decide (List.length (Messages r) = 0%nat)).
  - by inv_ret H5.
  - inv_bind H5. apply removeLayer_inv in Hm as ->.
    inv_bind H5. inv_bind H5. inv_ret H5. by eexists.
Qed.

Lemma createModel_Return_front r name base s s' :
  createModel r name base s = (Return (), s') →
  ∃ layers configLayer s1,
    createModel_front r base s = (Return (layers, configLayer), s1)
    ∧ last (trace s') = Some (Wrote name configLayer layers).
Proof.
  rewrite createModel_split. intros H. inv_bind H. destruct a as [layers cl].
  exists layers, cl, s0. split; [done|].
  rewrite (bind_eq _ _ _ _ _ (reportStatus_run layers s0)) in H.
  erewrite bind_eq in H by reflexivity.
  unfold WriteManifest', call_err, bind in H. cbn [world trace] in H.
  destruct (WriteManifest name cl layers (world s0)) as [w [e|]]; [done|].
  injection H as <-. cbn. by rewrite last_snoc.
Qed.

(** X3: the only layers [createModel] ever drops are template, system,
    parameters and messages layers.  Every base layer of another media
    type (model weights, adapters, licenses) is in the manifest a
    successful call writes; licenses in particular accumulate. *)
Theorem createModel_drops_only_overlay_kinds r name base s s' configLayer layers :
  createModel r name base s = (Return (), s') →
  last (trace s') = Some (Wrote name configLayer layers) →
  ∀ b, b ∈ base →
    MediaType (lLayer b) ∉ [mtTemplate; mtSystem; mtParams; mtMessages] →
    lLayer b ∈ layers.
Proof.
  intros H Hlast b Hb Hmt.
  apply createModel_Return_front in H as (layers' & cl' & s1 & Hfront & Hlast').
  rewrite Hlast' in Hlast. injection Hlast as <- <-.
  apply createModel_front_inv in Hfront
    as (l1 & l2 & l3 & l4 & H1 & H2 & [ls3 H3] & H4 & H5).
  assert (MediaType (lLayer b) ≠ mtTemplate ∧ MediaType (lLayer b) ≠ mtSystem
          ∧ MediaType (lLayer b) ≠ mtParams ∧ MediaType (lLayer b) ≠ mtMessages)
    as (Ht & Hs & Hp & Hms).
  { repeat split; intros Heq; apply Hmt; rewrite Heq;
      apply list_elem_of_In; cbn; auto. }
  assert (lLayer b ∈ l1) as Hin1.
  { destruct (decide (Template r ≠ "")) as [_|_].
    - destruct H1 as [l ->]. apply elem_of_app. left.
      apply others_keeps; [by apply list_elem_of_fmap_2|done].
    - subst l1. by apply list_elem_of_fmap_2. }
  assert (lLayer b ∈ l2) as Hin2.
  { destruct (decide (System r ≠ "")) as [_|_].
    - destruct H2 as [ls ->]. apply elem_of_app. left. by apply others_keeps.
    - by subst l2. }
  assert (lLayer b ∈ l3) as Hin3 by (subst l3; apply elem_of_app; by left).
  assert (lLayer b ∈ l4) as Hin4.
  { destruct H4 as [->|[l ->]]; [done|].
    apply elem_of_app. left. by apply others_keeps. }
  destruct (decide (List.length (Messages r) = 0%nat)) as [_|_].
  - by subst.
  - destruct H5 as [l ->]. apply elem_of_app. left. by apply others_keeps.
Qed.

(** X4: an overlay the request does not supply is left as the base has
    it.  With an empty template the written manifest holds every template
    layer of the base layers, and with no messages it holds every messages
    layer of the base layers. *)
Theorem createModel_keeps_unsupplied_overlays r name base s s' configLayer layers :
  createModel r name base s = (Return (), s') →
  last (trace s') = Some (Wrote name configLayer layers) →
  (Template r = "" →
   ∀ b, b ∈ base → MediaType (lLayer b) = mtTemplate → lLayer b ∈ layers)
  ∧ (Messages r = [] →
     ∀ b, b ∈ base → MediaType (lLayer b) = mtMessages → lLayer b ∈ layers).
Proof.
  intros H Hlast.
  apply createModel_Return_front in H as (layers' & cl' & s1 & Hfront & Hlast').
  rewrite Hlast' in Hlast. injection Hlast as <- <-.
  apply createModel_front_inv in Hfront
    as (l1 & l2 & l3 & l4 & H1 & H2 & [ls3 H3] & H4 & H5).
  assert (∀ b, lLayer b ∈ l1 →
            MediaType (lLayer b) = mtTemplate ∨ MediaType (lLayer b) = mtMessages →
            Template r = "" ∨ MediaType (lLayer b) = mtMessages →
            Messages r = [] ∨ MediaType (lLayer b) = mtTemplate →
            lLayer b ∈ layers') as Hrest.
  { intros b Hin1 Hkind Htpl Hmsg.
    assert (MediaType (lLayer b) ≠ mtSystem ∧ MediaType (lLayer b) ≠ mtParams)
      as [Hs Hp] by (destruct Hkind as [-> | ->]; by split).
    assert (lLayer b ∈ l2) as Hin2.
    { destruct (decide (System r ≠ "")) as [_|_].
      - destruct H2 as [ls ->]. apply elem_of_app. left. by apply others_keeps.
      - by subst l2. }
    assert (lLayer b ∈ l3) as Hin3 by (subst l3; apply elem_of_app; by left).
    assert (lLayer b ∈ l4) as Hin4.
    { destruct H4 as [->|[l ->]]; [done|].
      apply elem_of_app. left. by apply others_keeps. }
    destruct (decide (List.length (Messages r) = 0%nat)) as [_|Hlen].
    - by subst.
    - destruct H5 as [l ->]. apply elem_of_app. left. apply others_keeps; [done|].
      destruct Hmsg as [Hnil|Heq]; [by rewrite Hnil in Hlen|by rewrite Heq]. }
  split.
  - intros Htpl b Hb Hmt. apply Hrest; auto.
    rewrite Htpl in H1. destruct (decide ("" ≠ "")); [done|]. subst l1.
    by apply list_elem_of_fmap_2.
  - intros Hmsg b Hb Hmt. apply Hrest; auto.
    destruct (decide (Template r ≠ "")) as [_|_].
    + destruct H1 as [l ->]. apply elem_of_app. left.
      apply others_keeps; [by apply list_elem_of_fmap_2|]. by rewrite Hmt.
    + subst l1. by apply list_elem_of_fmap_2.
Qed.

End Kept.

(** ** [removeLayer], [kvFromLayers] and the aggregation of the config *)

Section Aggregation.
Context `{Ext : Externals}.

Lemma metadata_cons l rest :
  metadata (l :: rest)
  = match lGGML l with
    | Some ggml => ggml :: metadata rest
    | None => metadata rest
    end.
Proof. reflexivity. Qed.

Lemma removeLayer_effects layers mediatype s :
  ∃ s' t,
    removeLayer layers mediatype s = (Return (others mediatype layers), s')
    ∧ trace s' = trace s ++ t
    ∧ removed t = those mediatype layers
    ∧ Forall removalEffect t.
Proof.
  revert s. induction layers as [|layer rest IH]; intros s.
  - exists s, []. by rewrite app_nil_r.
  - unfold others, those in *. rewrite !filter_cons. cbn [removeLayer].
    destruct (decide (MediaType layer ≠ mediatype)) as [Hne|Heq].
    + destruct (IH s) as (s' & t & Hrun & Ht & Hrm & Hall).
      rewrite decide_False by done.
      exists s', t. by rewrite (bind_eq _ _ _ _ _ Hrun).
    + apply dec_stable in Heq. rewrite decide_True by done.
      unfold Remove, call_err, emit, bind; cbn.
      destruct (Layer_Remove layer (world s)) as [w [e|]]; cbn.
      * destruct (IH (mkState w ((trace s ++ [Removed layer])
                                   ++ [Warned (Digest layer) e])))
          as (s' & t & Hrun & Ht & Hrm & Hall).
        exists s', (Removed layer :: Warned (Digest layer) e :: t).
        split; [done|]. split; [by rewrite Ht; cbn; rewrite <-!app_assoc|].
        split; [cbn; by f_equal|]. by repeat constructor.
      * destruct (IH (mkState w (trace s ++ [Removed layer])))
          as (s' & t & Hrun & Ht & Hrm & Hall).
        exists s', (Removed layer :: t).
        split; [done|]. split; [by rewrite Ht; cbn; rewrite <-!app_assoc|].
        split; [cbn; by f_equal|]. by repeat constructor.
Qed.

(** X5: [removeLayer] calls [Remove] on exactly the layers it drops, once
    each and in list order, and does nothing else to the store: apart from
    those calls the trace gains only the warnings of failed removals. *)
Theorem removeLayer_removes_exactly_dropped layers mediatype s :
  ∃ s' t,
    removeLayer layers mediatype s = (Return (others mediatype layers), s')
    ∧ trace s' = trace s ++ t
    ∧ removed t = those mediatype layers
    ∧ Forall removalEffect t.
Proof. apply removeLayer_effects. Qed.

(** X6: [kvFromLayers] returns the metadata of the first base layer that
    carries any, whatever the layers before it are, and fails with "no
    base model was found" exactly when no layer carries metadata. *)
Theorem kvFromLayers_first_metadata base :
  kvFromLayers base
  = match metadata base with
    | ggml :: _ => Ok (GGML_KV ggml)
    | [] => Err errNoBaseModel
    end.
Proof.
  induction base as [|l rest IH]; [done|].
  rewrite metadata_cons. cbn. by destruct (lGGML l).
Qed.

Lemma createModel_base_Return r base config layers s config' layers' s' :
  createModel_base r base config layers s = (Return (config', layers'), s') →
  config' = foldl aggregate config (metadata base)
  ∧ layers' = layers ++ map lLayer base
  ∧ s' = s.
Proof.
  revert config layers. induction base as [|layer rest IH]; intros config layers H.
  - injection H as <- <- <-. by rewrite app_nil_r.
  - cbn [createModel_base] in H. rewrite metadata_cons. cbn [map].
    replace (layers ++ lLayer layer :: map lLayer rest)
      with ((layers ++ [lLayer layer]) ++ map lLayer rest)
      by (by rewrite <-app_assoc).
    destruct (lGGML layer) as [ggml|]; cbn zeta in H; cbn [foldl].
    + destruct (decide _) as [_|_].
      * destruct (decide (FileType (GGML_KV ggml) ∈ ["F16"; "F32"])); [|done].
        by apply (IH (aggregate config ggml)) in H.
      * by apply (IH (aggregate config ggml)) in H.
    + by apply (IH config) in H.
Qed.

Lemma createModel_base_accepts r base config layers s :
  quantizationRequested r = false ∨ existsb alreadyQuantized base = false →
  createModel_base r base config layers s
  = (Return (foldl aggregate config (metadata base), layers ++ map lLayer base), s).
Proof.
  intros Hok.
  destruct (createModel_base_pure r base config layers s) as [Hraise|[c Hret]].
  - exfalso. revert config layers Hraise.
    induction base as [|layer rest IH]; intros config layers H; [done|].
    cbn [createModel_base] in H. cbn [existsb] in Hok.
    unfold alreadyQuantized in Hok at 1.
    destruct (lGGML layer) as [ggml|]; cbn zeta in H.
    + destruct (decide _) as [(Hq & Hn & Hm)|_].
      * destruct (decide (FileType (GGML_KV ggml) ∈ ["F16"; "F32"])) as [Hin|Hout].
        -- rewrite (bool_decide_eq_true_2 _ Hin), andb_false_r in Hok.
           by apply IH in H.
        -- destruct Hok as [Hreq|Hex].
           ++ apply negb_false_iff, bool_decide_eq_true in Hreq.
              by rewrite Hreq in Hq.
           ++ by rewrite (bool_decide_eq_true_2 _ Hn), (bool_decide_eq_true_2 _ Hm),
                (bool_decide_eq_false_2 _ Hout) in Hex.
      * apply IH in H; [done|]. destruct Hok as [?|Hex]; [by left|].
        right. by apply orb_false_iff in Hex as [_ ?].
    + by apply IH in H.
  - rewrite Hret. by apply createModel_base_Return in Hret as (-> & _ & _).
Qed.

Lemma aggregate_fold config ggmls :
  ModelFormat (foldl aggregate config ggmls)
  = firstNonEmpty (ModelFormat config :: map GGML_Name ggmls)
  ∧ ModelFamily (foldl aggregate config ggmls)
    = firstNonEmpty (ModelFamily config
                     :: map (λ g, Architecture (GGML_KV g)) ggmls)
  ∧ ModelType (foldl aggregate config ggmls)
    = firstNonEmpty (ModelType config
                     :: map (λ g, HumanNumber (ParameterCount (GGML_KV g))) ggmls)
  ∧ CfgFileType (foldl aggregate config ggmls)
    = firstNonEmpty (CfgFileType config :: map (λ g, FileType (GGML_KV g)) ggmls)
  ∧ ModelFamilies (foldl aggregate config ggmls)
    = ModelFamilies config ++ map (λ g, Architecture (GGML_KV g)) ggmls
  ∧ CfgArchitecture (foldl aggregate config ggmls) = CfgArchitecture config
  ∧ OS (foldl aggregate config ggmls) = OS config
  ∧ CfgRootFS (foldl aggregate config ggmls) = CfgRootFS config.
Proof.
  revert config. induction ggmls as [|g rest IH]; intros config.
  - cbn. rewrite app_nil_r. repeat split; by destruct (decide _).
  - cbn [foldl map].
    destruct (IH (aggregate config g)) as (-> & -> & -> & -> & -> & -> & -> & ->).
    cbn [aggregate ModelFormat ModelFamily ModelType CfgFileType ModelFamilies
         CfgArchitecture OS CfgRootFS firstNonEmpty].
    unfold cmp_Or. rewrite <-app_assoc.
    repeat split; repeat destruct (decide _); try done; congruence.
Qed.

(** X7: the model fields of the config are first-wins.  When the loop over
    the base layers ends, format, family, type and file type each hold the
    first non-empty value among the metadata of the base layers, in layer
    order; later layers never overwrite them. *)
Theorem aggregation_is_first_wins r base s :
  match (createModel_base r base initialConfig [] s).1 with
  | Return (config, _) =>
      ModelFormat config = firstNonEmpty (map GGML_Name (metadata base))
      ∧ ModelFamily config
        = firstNonEmpty (map (λ g, Architecture (GGML_KV g)) (metadata base))
      ∧ ModelType config
        = firstNonEmpty
            (map (λ g, HumanNumber (ParameterCount (GGML_KV g))) (metadata base))
      ∧ CfgFileType config
        = firstNonEmpty (map (λ g, FileType (GGML_KV g)) (metadata base))
  | Raise e => e = errQuantizeSource
  | Diverge => False
  end.
Proof.
  destruct (createModel_base_pure r base initialConfig [] s) as [->|[c H]];
    [done|].
  rewrite H. cbn [fst]. apply createModel_base_Return in H as (-> & _ & _).
  destruct (aggregate_fold initialConfig (metadata base))
    as (-> & -> & -> & -> & _).
  by cbn.
Qed.

(** X8: the loop over the base layers keeps every base layer, in order, as
    a layer of the model, lists the architecture of every layer that
    carries metadata, in layer order and with repetitions, and leaves the
    platform and the root-filesystem type of the config as they were. *)
Theorem aggregation_keeps_layers_and_families r base s :
  match (createModel_base r base initialConfig [] s).1 with
  | Return (config, layers) =>
      layers = map lLayer base
      ∧ ModelFamilies config
        = map (λ g, Architecture (GGML_KV g)) (metadata base)
      ∧ OS config = "linux"
      ∧ CfgArchitecture config = "amd64"
      ∧ CfgRootFS config = mkRootFS "layers" []
  | Raise e => e = errQuantizeSource
  | Diverge => False
  end.
Proof.
  destruct (createModel_base_pure r base initialConfig [] s) as [->|[c H]];
    [done|].
  rewrite H. cbn [fst]. apply createModel_base_Return in H as (-> & _ & _).
  destruct (aggregate_fold initialConfig (metadata base))
    as (_ & _ & _ & _ & -> & -> & -> & ->).
  by cbn.
Qed.

(** X9: the loop over the base layers fails exactly when the request names
    a quantization type and some base layer is a GGUF model layer whose
    file type is neither F16 nor F32; in every other case it returns. *)
Theorem aggregation_fails_exactly_on_quantized_source r base s :
  ((createModel_base r base initialConfig [] s).1 = Raise errQuantizeSource
   ↔ quantizationRequested r = true ∧ existsb alreadyQuantized base = true)
  ∧ ((∃ out, (createModel_base r base initialConfig [] s).1 = Return out)
     ↔ quantizationRequested r = false ∨ existsb alreadyQuantized base = false).
Proof.
  destruct (quantizationRequested r) eqn:Hq,
    (existsb alreadyQuantized base) eqn:Hex.
  1: { rewrite (createModel_base_rejects r base _ _ s Hq Hex). cbn.
       split; [done|]. split; [by intros [? ?]|by intros [?|?]]. }
  all: rewrite createModel_base_accepts by (rewrite ?Hq, ?Hex; auto); cbn.
  all: split; [split; [done|by intros [? ?]]|split; [auto|by eexists]].
Qed.

End Aggregation.

(** ** Licenses, parameters and the template *)

Section MoreOverlays.
Context `{Ext : Externals}.

(** X10: licenses are appended, never replaced.  When [setLicenses]
    returns, the layer set is the one it was given followed by one new
    layer per license string, each created from that string as a license
    layer, in the order of the strings; nothing is removed. *)
Theorem setLicenses_appends_one_layer_per_license licenses layers s out s' :
  setLicenses layers licenses s = (Return out, s') →
  ∃ new,
    out = layers ++ new
    ∧ List.length new = List.length licenses
    ∧ trace s' = trace s ++ zip_with (λ c l, Created c mtLicense l) licenses new.
Proof.
  revert layers s. induction licenses as [|v rest IH]; intros layers s H;
    cbn [setLicenses] in H.
  - inv_ret H. exists []. by rewrite !app_nil_r.
  - inv_bind H. unfold setLicense in Hm. inv_bind Hm. inv_ret Hm.
    apply NewLayer'_Return in Hm0 as (w & _ & ->).
    apply IH in H as (new & -> & Hlen & ->).
    exists (a0 :: new). cbn. rewrite Hlen, <-!app_assoc. done.
Qed.

Lemma removeLayer_nothing layers mediatype s :
  those mediatype layers = [] →
  removeLayer layers mediatype s = (Return layers, s).
Proof.
  unfold those. revert s. induction layers as [|l rest IH]; intros s Hnone; [done|].
  rewrite filter_cons in Hnone. cbn [removeLayer].
  destruct (decide (MediaType l = mediatype)) as [Heq|Hne]; [done|].
  rewrite decide_True by done. by rewrite (bind_eq _ _ _ _ _ (IH s Hnone)).
Qed.

Lemma hasParameters_those layers :
  hasParameters layers = false → those mtParams layers = [].
Proof.
  unfold hasParameters, those. induction layers as [|l rest IH]; [done|].
  cbn [existsb]. intros [Hl Hrest]%orb_false_iff.
  apply bool_decide_eq_false in Hl. rewrite filter_cons, decide_False by done.
  by apply IH.
Qed.

Lemma loadParameters_none layers p s :
  hasParameters layers = false → loadParameters layers p s = (Return p, s).
Proof.
  unfold hasParameters. induction layers as [|l rest IH]; [done|].
  cbn [existsb loadParameters]. intros [Hl Hrest]%orb_false_iff.
  apply bool_decide_eq_false in Hl. rewrite decide_True by done. by apply IH.
Qed.

(** X11: on a layer set without a parameters layer [setParameters] removes
    nothing.  With no parameters supplied (nil or empty) it returns the
    layer set and the store as they were; otherwise it appends the layer
    created from the encoding of exactly the supplied map. *)
Theorem setParameters_without_stored_parameters layers p s :
  hasParameters layers = false →
  (default ∅ p = ∅ → setParameters layers p s = (Return layers, s))
  ∧ (default ∅ p ≠ ∅ →
     ∀ b w layer,
       json_encode_params (default ∅ p) = Ok b →
       NewLayer b mtParams (world s) = (w, Ok layer) →
       setParameters layers p s
       = (Return (layers ++ [layer]),
          mkState w (trace s ++ [Created b mtParams layer]))).
Proof.
  intros Hno.
  assert (setParameters layers p s
          = (if decide (size (default ∅ p) = 0%nat) then ret layers
             else
               do layers <- removeLayer layers mtParams;
               do b <- lift (json_encode_params (default ∅ p));
               do layer <- NewLayer' b mtParams;
               ret (layers ++ [layer])) s) as ->.
  { unfold setParameters.
    replace (match p with Some p0 => p0 | None => ∅ end) with (default ∅ p)
      by by destruct p.
    by rewrite (bind_eq _ _ _ _ _ (loadParameters_none layers _ s Hno)). }
  split.
  - intros ->. by rewrite decide_True by apply map_size_empty.
  - intros Hne b w layer Hb Hnew.
    rewrite decide_False by (by intros ?%map_size_empty_iff).
    rewrite (bind_eq _ _ _ _ _
               (removeLayer_nothing layers mtParams s (hasParameters_those _ Hno))).
    rewrite Hb. cbn. unfold NewLayer', call, bind, emit. by rewrite Hnew.
Qed.

(** X12: [setParameters] reads the stored parameters before it changes
    anything.  When the first parameters layer of the set cannot be read
    back (its blob is not found, does not open or does not decode),
    [setParameters] returns that error and store and trace are as they
    were: no layer has been removed. *)
Theorem setParameters_unreadable_changes_nothing layers l e p s :
  firstParameters layers = Some l →
  storedParameters l (world s) = Err e →
  setParameters layers p s = (Raise e, s).
Proof.
  intros Hfirst Hread. unfold setParameters. apply bind_Raise.
  generalize (match p with Some p0 => p0 | None => ∅ end). intros P.
  unfold firstParameters in Hfirst.
  induction layers as [|l0 rest IH]; [done|].
  cbn [List.find loadParameters] in *.
  destruct (bool_decide_reflect (MediaType l0 = mtParams)) as [Heq|Hne].
  - injection Hfirst as ->. rewrite decide_False by (by intros ?).
    unfold bind at 1, read. cbn. by rewrite Hread.
  - rewrite decide_True by done. by apply IH.
Qed.

(** X13: a template that does not parse is rejected after the old template
    has been removed.  [createModel] then returns an error that wraps
    [errBadTemplate] with the message of the parser; by then [Remove] has
    been called on every template layer of the base layers, and nothing
    has been created or written. *)
Theorem createModel_bad_template r name base err s :
  Template r ≠ "" →
  template_Parse (Template r) = Some err →
  quantizationRequested r = false ∨ existsb alreadyQuantized base = false →
  ∃ s1 t,
    createModel r name base s = (Raise (Wrapped BadTemplate (Error err)), s1)
    ∧ errors_Is (Wrapped BadTemplate (Error err)) BadTemplate = true
    ∧ trace s1 = trace s ++ t
    ∧ removed t = those mtTemplate (map lLayer base)
    ∧ Forall removalEffect t.
Proof.
  intros Htpl Hparse Hok.
  destruct (removeLayer_effects (map lLayer base) mtTemplate s)
    as (s1 & t & Hrm & Ht & Hremoved & Hall).
  exists s1, t. split; [|done].
  unfold createModel.
  rewrite (bind_eq _ _ _ _ _ (createModel_base_accepts r base _ _ s Hok)).
  cbn [app]. apply bind_Raise. rewrite decide_True by done.
  unfold setTemplate. rewrite (bind_eq _ _ _ _ _ Hrm). by rewrite Hparse.
Qed.

End MoreOverlays.

(** ** Conversion of files and the goroutine *)

Section MoreHandler.
Context `{Ext : Externals}.

(** X14: a files map whose first visited name ends in [.safetensors] is
    rejected with [errUnknownType], whatever the other files are and for
    base and adapter files alike; nothing is opened, sent or stored. *)
Theorem convertModelFromFiles_rejects_safetensors fuel fn digest rest base isAdapter s :
  HasSuffix fn ".safetensors" = true →
  convertModelFromFiles fuel ((fn, digest) :: rest) base isAdapter s
  = (Raise errUnknownType, s).
Proof.
  intros Hsuf. unfold convertModelFromFiles, detectModelTypeFromFiles, bind, read.
  cbn [detectModelType_range]. by rewrite Hsuf.
Qed.

Lemma index_head fn digest rest : index ((fn, digest) :: rest) fn = digest.
Proof. unfold index. cbn. by rewrite bool_decide_eq_true_2. Qed.

(** X15: detection gives up at the first visited file it cannot sniff.
    When that file has neither known suffix and its blob does not open,
    the conversion fails with [errUnknownType] even if files visited later
    are GGUF files; nothing is sent or stored. *)
Theorem convertModelFromFiles_unreadable_first_file
    fuel fn digest rest path e base isAdapter s :
  HasSuffix fn ".safetensors" = false →
  HasSuffix fn ".gguf" = false →
  GetBlobsPath digest = Ok path →
  os_Open path (world s) = Err e →
  convertModelFromFiles fuel ((fn, digest) :: rest) base isAdapter s
  = (Raise errUnknownType, s).
Proof.
  intros Hst Hgg Hpath Hopen.
  unfold convertModelFromFiles, detectModelTypeFromFiles, bind, read.
  cbn [detectModelType_range]. by rewrite Hst, Hgg, index_head, Hpath, Hopen.
Qed.

(** X16: more than one adapter file is refused before any of them is
    parsed.  When the adapters map has at least two entries and is detected
    as GGUF, the goroutine sends "only one adapter is currently supported"
    with the status 400 and returns; the store is as it was. *)
Theorem second_adapter_is_refused fuel r adapters base s :
  Adapters r = Some adapters →
  detectModelType_range adapters adapters (world s) = "gguf" →
  (1 < List.length adapters)%nat →
  CreateHandler_adapters fuel r base s
  = (Return None,
     mkState (world s)
       (trace s ++ [Sent (ErrorMsg "only one adapter is currently supported"
                            (Some StatusBadRequest))])).
Proof.
  intros Had Hdet Hlen. unfold CreateHandler_adapters. rewrite Had.
  assert (convertModelFromFiles fuel adapters base true s
          = (Raise errOnlyOneAdapterSupported, s)) as Hconv.
  { unfold convertModelFromFiles, detectModelTypeFromFiles, bind, read.
    rewrite Hdet. destruct (decide ("gguf" = "gguf")); [|done].
    destruct (decide (List.length adapters = 0%nat)); [lia|].
    by rewrite (proj2 (Nat.ltb_lt _ _) Hlen). }
  unfold bind at 1, catch. by rewrite Hconv.
Qed.

Lemma ggufLayers_not_gguf fuel digest path blob ct s :
  GetBlobsPath digest = Ok path →
  os_Open path (world s) = Ok blob →
  detectContentType (File_Section blob 0 512 (world s)) = Ok ct →
  ct ≠ "gguf" →
  ggufLayers fuel digest s
  = (Raise errOnlyGGUFSupported,
     mkState (world s) (trace s ++ [Sent (Progress "parsing GGUF")])).
Proof.
  intros Hpath Hopen Hct Hne. unfold ggufLayers. cbv zeta.
  erewrite bind_eq by reflexivity. rewrite Hpath.
  erewrite bind_eq by reflexivity.
  erewrite bind_eq by reflexivity. cbn [world]. rewrite Hopen.
  erewrite bind_eq by reflexivity.
  erewrite bind_eq by reflexivity. cbn [world]. rewrite Hct.
  erewrite bind_eq by reflexivity.
  by rewrite decide_True.
Qed.

Lemma source_files_failure fuel r files e s s1 :
  From r = "" →
  Files r = Some files →
  convertModelFromFiles fuel files [] false s = (Raise e, s1) →
  CreateHandler_source fuel r s
  = (Return None,
     mkState (world s1)
       (trace s1 ++ [Sent (ErrorMsg (Error e) (fileErrorStatus e))])).
Proof.
  intros Hfrom Hfiles Hconv. unfold CreateHandler_source. rewrite Hfrom, Hfiles.
  destruct (decide ("" ≠ "")); [done|].
  unfold bind at 1, catch. rewrite Hconv. unfold fileErrorStatus.
  cbn [existsb]. rewrite orb_false_r, orb_assoc.
  by destruct (_ || _ || _).
Qed.

(** X17: the suffix does not settle the format.  For a request with one
    file whose name ends in [.gguf] and whose content is detected as
    something else, the goroutine sends "parsing GGUF", then "supplied
    file was not in GGUF format" with the status 400, and returns; no
    layer is created and no manifest written. *)
Theorem gguf_name_with_other_content_is_bad_request
    fuel r name fn digest path blob ct s :
  From r = "" →
  Files r = Some [(fn, digest)] →
  HasSuffix fn ".safetensors" = false →
  HasSuffix fn ".gguf" = true →
  GetBlobsPath digest = Ok path →
  os_Open path (world s) = Ok blob →
  detectContentType (File_Section blob 0 512 (world s)) = Ok ct →
  ct ≠ "gguf" →
  CreateHandler_go fuel r name s
  = (Return (),
     mkState (world s)
       (trace s ++ [Sent (Progress "parsing GGUF");
                    Sent (ErrorMsg "supplied file was not in GGUF format"
                            (Some StatusBadRequest))])).
Proof.
  intros Hfrom Hfiles Hst Hgg Hpath Hopen Hct Hne.
  unfold CreateHandler_go. erewrite bind_eq by reflexivity.
  assert (convertModelFromFiles fuel [(fn, digest)] [] false s
          = (Raise errOnlyGGUFSupported,
             mkState (world s) (trace s ++ [Sent (Progress "parsing GGUF")])))
    as Hconv.
  { unfold convertModelFromFiles, detectModelTypeFromFiles.
    erewrite bind_eq by reflexivity. cbn [detectModelType_range].
    rewrite Hst, Hgg. cbn [List.length].
    destruct (decide ("gguf" = "gguf")); [|done].
    destruct (decide (1%nat = 0%nat)); [done|].
    cbn [Nat.ltb Nat.leb andb convertModel_range].
    by rewrite (bind_Raise _ _ _ _ _
                  (ggufLayers_not_gguf fuel digest path blob ct s
                     Hpath Hopen Hct Hne)). }
  rewrite (bind_eq _ _ _ _ _ (source_files_failure fuel r _ _ s _ Hfrom Hfiles Hconv)).
  cbn. by rewrite <-app_assoc.
Qed.

(** X18: a request that names neither a source model nor files gets one
    event, "neither 'from' or 'files' was specified" with the status 400,
    whatever else it carries; the store is not touched. *)
Theorem neither_from_nor_files fuel r name s :
  From r = "" →
  Files r = None →
  CreateHandler_go fuel r name s
  = (Return (),
     mkState (world s)
       (trace s ++ [Sent (ErrorMsg "neither 'from' or 'files' was specified"
                            (Some StatusBadRequest))])).
Proof.
  intros Hfrom Hfiles. unfold CreateHandler_go, CreateHandler_source.
  erewrite bind_eq by reflexivity. rewrite Hfrom, Hfiles.
  by destruct (decide ("" ≠ "")).
Qed.

(** X19: an error of the conversion of the base files ends the goroutine
    with one event that carries the message of the error, with the status
    400 when the error is [errNoFilesProvided], [errOnlyGGUFSupported] or
    [errUnknownType] and without a status otherwise; [createModel] is not
    called. *)
Theorem files_failure_classification fuel r name files e s s1 :
  From r = "" →
  Files r = Some files →
  convertModelFromFiles fuel files [] false s = (Raise e, s1) →
  CreateHandler_go fuel r name s
  = (Return (),
     mkState (world s1)
       (trace s1 ++ [Sent (ErrorMsg (Error e) (fileErrorStatus e))])).
Proof.
  intros Hfrom Hfiles Hconv. unfold CreateHandler_go.
  erewrite bind_eq by reflexivity.
  by rewrite (bind_eq _ _ _ _ _ (source_files_failure fuel r _ _ s _ Hfrom Hfiles Hconv)).
Qed.

(** X20: a failure of [createModel] ends the goroutine with one event: the
    message of the error, with the status 400 only when the error wraps
    [errBadTemplate].  The old manifest is not pruned and no success event
    is sent. *)
Theorem create_failure_classification r name old base adapters e s s1 :
  createModel r name
    (if (0 <? List.length adapters)%nat then base ++ adapters else base) s
  = (Raise e, s1) →
  CreateHandler_create r name old base adapters s
  = (Return (),
     mkState (world s1)
       (trace s1 ++ [Sent (ErrorMsg (Error e)
                             (if errors_Is e BadTemplate
                              then Some StatusBadRequest else None))])).
Proof.
  intros Hcreate. unfold CreateHandler_create. cbv zeta.
  unfold bind at 1, catch. rewrite Hcreate.
  by destruct (errors_Is e BadTemplate).
Qed.

(** X21: the rejection of a quantized source is not reported as a caller
    error.  When the request names a quantization type and a base layer is
    a GGUF model layer that is neither F16 nor F32, the goroutine sends the
    quantization message without a status and ends; the store is as it
    was. *)
Theorem quantized_source_is_reported_without_status r name old base s :
  quantizationRequested r = true →
  existsb alreadyQuantized base = true →
  CreateHandler_create r name old base [] s
  = (Return (),
     mkState (world s)
       (trace s ++ [Sent (ErrorMsg
                            "quantization is only supported for F16 and F32 models"
                            None)])).
Proof.
  intros Hq Hex. unfold CreateHandler_create. cbn [List.length Nat.ltb Nat.leb].
  assert (createModel r name base s = (Raise errQuantizeSource, s)) as Hcreate.
  { unfold createModel. apply bind_Raise. by apply createModel_base_rejects. }
  unfold bind at 1, catch. by rewrite Hcreate.
Qed.

(** X22: pruning is skipped when it is disabled or when the name had no
    manifest before.  After a successful [createModel] the goroutine then
    sends the success event at once and leaves the store as [createModel]
    left it. *)
Theorem success_without_pruning r name old base adapters s s1 :
  createModel r name
    (if (0 <? List.length adapters)%nat then base ++ adapters else base) s
  = (Return (), s1) →
  NoPrune (world s1) = true ∨ old = None →
  CreateHandler_create r name old base adapters s
  = (Return (), mkState (world s1) (trace s1 ++ [Sent (Progress "success")])).
Proof.
  intros Hcreate Hskip. unfold CreateHandler_create. cbv zeta.
  unfold bind at 1, catch. rewrite Hcreate.
  unfold bind at 1, read at 1.
  destruct Hskip as [-> | ->]; [done|].
  by destruct (NoPrune (world s1)).
Qed.

End MoreHandler.

(** ** A request that never finishes, and the seed messages *)

Section Hanging.
Context `{Ext : Externals}.

Lemma adds_ggufLayers_loop fuel digest blob size offset :
  adds storeEffect (ggufLayers_loop fuel digest blob size offset).
Proof.
  induction fuel as [|fuel IH]; cbn [ggufLayers_loop].
  - destruct (decide (offset < size)); [|apply adds_ret].
    intros s. exists []. by rewrite app_nil_r.
  - destruct (decide (offset < size)); [|apply adds_ret].
    unfold NewLayerFromLayer'. repeat adds_step; try done.
    all: apply adds_NewLayer'.
Qed.

Lemma ggufLayers_trace fuel digest s :
  ∃ t,
    trace (ggufLayers fuel digest s).2
    = trace s ++ Sent (Progress "parsing GGUF") :: t
    ∧ Forall storeEffect t.
Proof.
  unfold ggufLayers. cbv zeta. erewrite bind_eq by reflexivity.
  match goal with
  | |- context [bind ?m ?k (mkState ?w ?t)] =>
      assert (adds storeEffect (bind m k)) as Hadds
  end.
  { repeat adds_step; try done. apply adds_ggufLayers_loop. }
  destruct (Hadds (mkState (world s) (trace s ++ [Sent (Progress "parsing GGUF")])))
    as (t & Ht & Hall).
  exists t. split; [|done]. rewrite Ht. cbn. by rewrite <-app_assoc.
Qed.

Lemma bind_Diverge_eq {A B} (m : M A) (k : A → M B) s s1 :
  m s = (Diverge, s1) → bind m k s = (Diverge, s1).
Proof. unfold bind. by intros ->. Qed.

(** X23: creation from a stored GGUF file never finishes.  For a request
    with one file whose name ends in [.gguf], whose blob is found, is
    detected as GGUF, has a positive size and links under its digest, the
    goroutine sends "parsing GGUF" and is then still running after any
    number of iterations: it sends no further event, neither an error nor
    the success event. *)
Theorem gguf_file_request_never_finishes
    r name fn digest path blob size layer s :
  From r = "" →
  Files r = Some [(fn, digest)] →
  HasSuffix fn ".safetensors" = false →
  HasSuffix fn ".gguf" = true →
  GetBlobsPath digest = Ok path →
  os_Open path (world s) = Ok blob →
  detectContentType (File_Section blob 0 512 (world s)) = Ok "gguf" →
  File_Stat_Size blob (world s) = Ok size →
  0 < size → digest ≠ "" → Digest layer ≠ "" →
  NewLayerFromLayer digest mtModel (File_Name blob) (world s) = (world s, Ok layer) →
  ∀ fuel,
    (CreateHandler_go fuel r name s).1 = Diverge
    ∧ sent (trace (CreateHandler_go fuel r name s).2)
      = sent (trace s) ++ [Progress "parsing GGUF"].
Proof.
  intros Hfrom Hfiles Hst Hgg Hpath Hopen Hct Hstat Hsize Hd Hl Hnew fuel.
  pose proof (run_eta _ _ (ggufLayers_spins digest path blob size layer s
                             Hpath Hopen Hct Hstat Hsize Hd Hl Hnew fuel)) as Hrun.
  destruct (ggufLayers_trace fuel digest s) as (t & Ht & Hall).
  assert (CreateHandler_go fuel r name s
          = (Diverge, (ggufLayers fuel digest s).2)) as ->.
  { unfold CreateHandler_go. erewrite bind_eq by reflexivity.
    apply bind_Diverge_eq. unfold CreateHandler_source. rewrite Hfrom, Hfiles.
    destruct (decide ("" ≠ "")); [done|].
    apply bind_Diverge_eq. unfold catch.
    assert (convertModelFromFiles fuel [(fn, digest)] [] false s
            = (Diverge, (ggufLayers fuel digest s).2)) as ->; [|done].
    unfold convertModelFromFiles, detectModelTypeFromFiles.
    erewrite bind_eq by reflexivity. cbn [detectModelType_range].
    rewrite Hst, Hgg. cbn [List.length].
    destruct (decide ("gguf" = "gguf")); [|done].
    destruct (decide (1%nat = 0%nat)); [done|].
    cbn [Nat.ltb Nat.leb andb convertModel_range].
    by apply bind_Diverge_eq. }
  split; [done|]. cbn [snd]. rewrite Ht.
  apply storeEffect_silent in Hall as [Hs _].
  by rewrite (cons_middle (Sent _)), !sent_app, Hs, app_nil_r.
Qed.

(** X24: seed messages are replaced only when some are supplied.  With no
    messages [setMessages] returns the layer set and the store as they
    were; with some, a successful call has removed every messages layer,
    and returns the other layers followed by the layer created from the
    encoding of the supplied messages. *)
Theorem setMessages_replaces_or_preserves layers m s :
  (m = [] → setMessages layers m s = (Return layers, s))
  ∧ (m ≠ [] →
     ∀ out s', setMessages layers m s = (Return out, s') →
       ∃ b layer t,
         json_encode_messages m = Ok b
         ∧ out = others mtMessages layers ++ [layer]
         ∧ trace s' = trace s ++ t ++ [Created b mtMessages layer]
         ∧ removed t = those mtMessages layers
         ∧ Forall removalEffect t).
Proof.
  split; [by intros ->|].
  intros Hm out s' H. unfold setMessages in H.
  destruct (decide (List.length m = 0%nat)) as [Hlen|_];
    [by destruct m|].
  destruct (removeLayer_effects layers mtMessages s)
    as (s1 & t & Hrm & Ht & Hremoved & Hall).
  rewrite (bind_eq _ _ _ _ _ Hrm) in H.
  inv_bind H. apply lift_Return in Hm0 as [Henc ->].
  inv_bind H. inv_ret H. apply NewLayer'_Return in Hm0 as (w & _ & ->).
  exists a, a0, t. cbn. by rewrite Ht, <-app_assoc.
Qed.

End Hanging.

(** ** Runs of the further properties on the in-memory store *)

Section MoreRuns.
Import Mem Cases.

Lemma createModel_drops_only_overlay_kinds_witness :
  (createModel reqFromBase "m" richLayers (start richStore)).1 = Return ()
  ∧ mkLayerGGML licenseLayer None ∈ richLayers
  ∧ (MediaType licenseLayer ∉ [mtTemplate; mtSystem; mtParams; mtMessages])
  ∧ ∃ configLayer layers,
      last (trace (createModel reqFromBase "m" richLayers (start richStore)).2)
      = Some (Wrote ("m" : @Name ext) configLayer layers)
      ∧ licenseLayer ∈ layers.
Proof.
  assert ((createModel reqFromBase "m" richLayers (start richStore)).1 = Return ())
    as Hrun by (vm_compute; reflexivity).
  assert (mkLayerGGML licenseLayer None ∈ richLayers) as Hin
    by (apply list_elem_of_In; cbn; auto 10).
  assert (MediaType licenseLayer ∉ [mtTemplate; mtSystem; mtParams; mtMessages])
    as Hkind.
  { intros Hk. apply list_elem_of_In in Hk. cbn in Hk.
    repeat destruct Hk as [Hk|Hk]; try discriminate Hk. done. }
  split; [exact Hrun|]. split; [exact Hin|]. split; [exact Hkind|].
  apply run_eta in Hrun.
  destruct (createModel_Return_front _ _ _ _ _ Hrun)
    as (layers & cl & s1 & _ & Hlast).
  exists cl, layers. split; [exact Hlast|].
  exact (createModel_drops_only_overlay_kinds (Ext := ext) _ _ _ _ _ _ _
           Hrun Hlast (mkLayerGGML licenseLayer None) Hin Hkind).
Defined.

Lemma createModel_keeps_unsupplied_overlays_witness :
  (createModel reqFromBase "m" richLayers (start richStore)).1 = Return ()
  ∧ Template reqFromBase = ""
  ∧ Messages reqFromBase = []
  ∧ ∃ configLayer layers,
      last (trace (createModel reqFromBase "m" richLayers (start richStore)).2)
      = Some (Wrote ("m" : @Name ext) configLayer layers)
      ∧ templateLayer ∈ layers
      ∧ messagesLayer ∈ layers.
Proof.
  assert ((createModel reqFromBase "m" richLayers (start richStore)).1 = Return ())
    as Hrun by (vm_compute; reflexivity).
  split; [exact Hrun|]. split; [reflexivity|]. split; [reflexivity|].
  apply run_eta in Hrun.
  destruct (createModel_Return_front _ _ _ _ _ Hrun)
    as (layers & cl & s1 & _ & Hlast).
  exists cl, layers. split; [exact Hlast|].
  destruct (createModel_keeps_unsupplied_overlays (Ext := ext) _ _ _ _ _ _ _
              Hrun Hlast) as [Htpl Hmsg].
  split.
  - apply (Htpl eq_refl (mkLayerGGML templateLayer None)); [|reflexivity].
    apply list_elem_of_In; cbn; auto 10.
  - apply (Hmsg eq_refl (mkLayerGGML messagesLayer None)); [|reflexivity].
    apply list_elem_of_In; cbn; auto 10.
Defined.

Lemma setLicenses_appends_one_layer_per_license_witness :
  (setLicenses (Ext := ext) [modelLayer] ["MIT"; "Apache-2.0"] (start baseStore)).1
  = Return [modelLayer; created "MIT" mtLicense; created "Apache-2.0" mtLicense]
  ∧ ∃ new,
      ([modelLayer; created "MIT" mtLicense; created "Apache-2.0" mtLicense]
       = [modelLayer] ++ new)
      ∧ List.length new = 2%nat
      ∧ trace (setLicenses (Ext := ext) [modelLayer] ["MIT"; "Apache-2.0"]
                 (start baseStore)).2
        = trace (start baseStore)
          ++ zip_with (λ c l, Created c mtLicense l) ["MIT"; "Apache-2.0"] new.
Proof.
  assert ((setLicenses (Ext := ext) [modelLayer] ["MIT"; "Apache-2.0"]
             (start baseStore)).1
          = Return [modelLayer; created "MIT" mtLicense;
                    created "Apache-2.0" mtLicense]) as Hrun
    by (vm_compute; reflexivity).
  split; [exact Hrun|].
  exact (setLicenses_appends_one_layer_per_license (Ext := ext) _ _ _ _ _
           (run_eta _ _ Hrun)).
Defined.

Lemma setParameters_without_stored_parameters_witness :
  hasParameters [modelLayer] = false
  ∧ @json_encode_params ext {[ "a" := "1" ]} = Ok "a=1;"
  ∧ @NewLayer ext "a=1;" mtParams emptyStore
    = (mkStore {[ digestOf "a=1;" := "a=1;" ]} ∅ false, Ok (created "a=1;" mtParams))
  ∧ setParameters (Ext := ext) [modelLayer] None (start emptyStore)
    = (Return [modelLayer], start emptyStore)
  ∧ setParameters (Ext := ext) [modelLayer] (Some {[ "a" := "1" ]}) (start emptyStore)
    = (Return ([modelLayer] ++ [created "a=1;" mtParams]),
       @mkState ext (mkStore {[ digestOf "a=1;" := "a=1;" ]} ∅ false)
         (trace (start emptyStore)
          ++ [Created "a=1;" mtParams (created "a=1;" mtParams)])).
Proof.
  assert (@json_encode_params ext {[ "a" := "1" ]} = Ok "a=1;") as Henc
    by (vm_compute; reflexivity).
  assert (@NewLayer ext "a=1;" mtParams emptyStore
          = (mkStore {[ digestOf "a=1;" := "a=1;" ]} ∅ false,
             Ok (created "a=1;" mtParams))) as Hnew
    by (vm_compute; reflexivity).
  split; [reflexivity|]. split; [exact Henc|]. split; [exact Hnew|]. split.
  - exact (proj1 (setParameters_without_stored_parameters (Ext := ext)
                    [modelLayer] None (start emptyStore) eq_refl) eq_refl).
  - apply (proj2 (setParameters_without_stored_parameters (Ext := ext)
                    [modelLayer] (Some {[ "a" := "1" ]}) (start emptyStore) eq_refl)).
    + intros Hempty. apply (f_equal (λ m : gmap string string, m !! "a")) in Hempty.
      vm_compute in Hempty. discriminate Hempty.
    + exact Henc.
    + exact Hnew.
Defined.

Lemma setParameters_unreadable_changes_nothing_witness :
  firstParameters [modelLayer; lostParameters; paramsLayer] = Some lostParameters
  ∧ @storedParameters ext lostParameters baseStore
    = Err (Opaque "open /blobs/sha256:lost: no such file or directory")
  ∧ setParameters (Ext := ext) [modelLayer; lostParameters; paramsLayer]
      (Some {[ "b" := "2" ]}) (start baseStore)
    = (Raise (Opaque "open /blobs/sha256:lost: no such file or directory"),
       start baseStore).
Proof.
  assert (@storedParameters ext lostParameters baseStore
          = Err (Opaque "open /blobs/sha256:lost: no such file or directory"))
    as Hread by (vm_compute; reflexivity).
  split; [reflexivity|]. split; [exact Hread|].
  exact (setParameters_unreadable_changes_nothing (Ext := ext)
           [modelLayer; lostParameters; paramsLayer] lostParameters _
           (Some {[ "b" := "2" ]}) (start baseStore) eq_refl Hread).
Defined.

Lemma createModel_bad_template_witness :
  Template reqBadTemplate ≠ ""
  ∧ @template_Parse ext (Template reqBadTemplate)
    = Some (Opaque "template: unclosed action")
  ∧ quantizationRequested reqBadTemplate = false
  ∧ ∃ s1 t,
      createModel reqBadTemplate "m" richLayers (start richStore)
      = (Raise (Wrapped BadTemplate
                  (@Error ext (Opaque "template: unclosed action"))), s1)
      ∧ errors_Is (Wrapped BadTemplate
                     (@Error ext (Opaque "template: unclosed action")))
          BadTemplate = true
      ∧ trace s1 = trace (start richStore) ++ t
      ∧ removed t = those mtTemplate (map lLayer richLayers)
      ∧ Forall removalEffect t.
Proof.
  assert (@template_Parse ext (Template reqBadTemplate)
          = Some (Opaque "template: unclosed action")) as Hparse
    by (vm_compute; reflexivity).
  split; [discriminate|]. split; [exact Hparse|]. split; [reflexivity|].
  exact (createModel_bad_template (Ext := ext) reqBadTemplate "m" richLayers _
           (start richStore) ltac:(discriminate) Hparse (or_introl eq_refl)).
Defined.

Lemma convertModelFromFiles_rejects_safetensors_witness :
  HasSuffix "model.safetensors" ".safetensors" = true
  ∧ convertModelFromFiles (Ext := ext) 0
      [("model.safetensors", digestOf "GGUFQ4_0"); ("b.gguf", digestOf "GGUFQ4_0")]
      [] false (start baseStore)
    = (Raise errUnknownType, start baseStore).
Proof.
  split; [reflexivity|].
  exact (convertModelFromFiles_rejects_safetensors (Ext := ext) 0
           "model.safetensors" (digestOf "GGUFQ4_0")
           [("b.gguf", digestOf "GGUFQ4_0")] [] false (start baseStore) eq_refl).
Defined.

Lemma convertModelFromFiles_unreadable_first_file_witness :
  HasSuffix "model.bin" ".safetensors" = false
  ∧ HasSuffix "model.bin" ".gguf" = false
  ∧ @GetBlobsPath ext (digestOf "absent") = Ok (blobsDir +:+ digestOf "absent")
  ∧ @os_Open ext (blobsDir +:+ digestOf "absent") baseStore
    = Err (Opaque "open /blobs/sha256:absent: no such file or directory")
  ∧ convertModelFromFiles (Ext := ext) 0
      [("model.bin", digestOf "absent"); ("b.gguf", digestOf "GGUFQ4_0")]
      [] false (start baseStore)
    = (Raise errUnknownType, start baseStore).
Proof.
  assert (@os_Open ext (blobsDir +:+ digestOf "absent") baseStore
          = Err (Opaque "open /blobs/sha256:absent: no such file or directory"))
    as Hopen by (vm_compute; reflexivity).
  split; [reflexivity|]. split; [reflexivity|]. split; [reflexivity|].
  split; [exact Hopen|].
  exact (convertModelFromFiles_unreadable_first_file (Ext := ext) 0
           "model.bin" (digestOf "absent") [("b.gguf", digestOf "GGUFQ4_0")]
           (blobsDir +:+ digestOf "absent") _ [] false
           (start baseStore) eq_refl eq_refl eq_refl Hopen).
Defined.

Lemma second_adapter_is_refused_witness :
  Adapters reqTwoAdapters = Some twoAdapters
  ∧ @detectModelType_range ext twoAdapters twoAdapters baseStore = "gguf"
  ∧ (1 < List.length twoAdapters)%nat
  ∧ CreateHandler_adapters (Ext := ext) 0 reqTwoAdapters baseLayers (start baseStore)
    = (Return None,
       @mkState ext baseStore
         (trace (start baseStore)
          ++ [Sent (ErrorMsg "only one adapter is currently supported"
                      (Some StatusBadRequest))])).
Proof.
  assert ((1 < List.length twoAdapters)%nat) as Hlen by (cbn; lia).
  split; [reflexivity|]. split; [reflexivity|]. split; [exact Hlen|].
  exact (second_adapter_is_refused (Ext := ext) 0 reqTwoAdapters twoAdapters
           baseLayers (start baseStore) eq_refl eq_refl Hlen).
Defined.

Lemma gguf_name_with_other_content_is_bad_request_witness :
  From reqTextFile = ""
  ∧ Files reqTextFile = Some [("model.gguf", digestOf "plain text")]
  ∧ HasSuffix "model.gguf" ".safetensors" = false
  ∧ HasSuffix "model.gguf" ".gguf" = true
  ∧ @os_Open ext (blobsDir +:+ digestOf "plain text") richStore
    = Ok (digestOf "plain text")
  ∧ @detectContentType ext
      (@File_Section ext (digestOf "plain text") 0 512 richStore) = Ok ""
  ∧ CreateHandler_go (Ext := ext) 0 reqTextFile "m" (start richStore)
    = (Return (),
       @mkState ext richStore
         (trace (start richStore)
          ++ [Sent (Progress "parsing GGUF");
              Sent (ErrorMsg "supplied file was not in GGUF format"
                      (Some StatusBadRequest))])).
Proof.
  assert (@os_Open ext (blobsDir +:+ digestOf "plain text") richStore
          = Ok (digestOf "plain text")) as Hopen by (vm_compute; reflexivity).
  assert (@detectContentType ext
            (@File_Section ext (digestOf "plain text") 0 512 richStore) = Ok "")
    as Hct by (vm_compute; reflexivity).
  split; [reflexivity|]. split; [reflexivity|]. split; [reflexivity|].
  split; [reflexivity|]. split; [exact Hopen|]. split; [exact Hct|].
  exact (gguf_name_with_other_content_is_bad_request (Ext := ext) 0 reqTextFile "m"
           "model.gguf" (digestOf "plain text")
           (blobsDir +:+ digestOf "plain text") (digestOf "plain text") ""
           (start richStore)
           eq_refl eq_refl eq_refl eq_refl eq_refl Hopen Hct ltac:(discriminate)).
Defined.

Lemma neither_from_nor_files_witness :
  From reqNeither = ""
  ∧ Files reqNeither = None
  ∧ CreateHandler_go (Ext := ext) 0 reqNeither "m" (start baseStore)
    = (Return (),
       @mkState ext baseStore
         (trace (start baseStore)
          ++ [Sent (ErrorMsg "neither 'from' or 'files' was specified"
                      (Some StatusBadRequest))])).
Proof.
  split; [reflexivity|]. split; [reflexivity|].
  exact (neither_from_nor_files (Ext := ext) 0 reqNeither "m" (start baseStore)
           eq_refl eq_refl).
Defined.

Lemma files_failure_classification_witness :
  From reqNoFiles = ""
  ∧ Files reqNoFiles = Some []
  ∧ convertModelFromFiles (Ext := ext) 0 [] [] false (start baseStore)
    = (Raise errUnknownType, start baseStore)
  ∧ fileErrorStatus errUnknownType = Some StatusBadRequest
  ∧ CreateHandler_go (Ext := ext) 0 reqNoFiles "m" (start baseStore)
    = (Return (),
       @mkState ext baseStore
         (trace (start baseStore)
          ++ [Sent (ErrorMsg (@Error ext errUnknownType)
                      (fileErrorStatus errUnknownType))])).
Proof.
  split; [reflexivity|]. split; [reflexivity|]. split; [reflexivity|].
  split; [reflexivity|].
  exact (files_failure_classification (Ext := ext) 0 reqNoFiles "m" [] _
           (start baseStore) (start baseStore) eq_refl eq_refl eq_refl).
Defined.

Lemma create_failure_classification_witness :
  (createModel reqBadTemplate "m" baseLayers (start baseStore)).1
  = Raise (Wrapped BadTemplate "template: unclosed action")
  ∧ sent (trace (CreateHandler_create (Ext := ext) reqBadTemplate "m" None
                   baseLayers [] (start baseStore)).2)
    = [ErrorMsg "template error: template: unclosed action" (Some StatusBadRequest)]
  ∧ CreateHandler_create (Ext := ext) reqBadTemplate "m" None baseLayers []
      (start baseStore)
    = (Return (),
       mkState
         (world (createModel reqBadTemplate "m" baseLayers (start baseStore)).2)
         (trace (createModel reqBadTemplate "m" baseLayers (start baseStore)).2
          ++ [Sent (ErrorMsg
                      (@Error ext (Wrapped BadTemplate "template: unclosed action"))
                      (if errors_Is (Wrapped BadTemplate "template: unclosed action")
                            BadTemplate
                       then Some StatusBadRequest else None))])).
Proof.
  assert ((createModel reqBadTemplate "m" baseLayers (start baseStore)).1
          = Raise (Wrapped BadTemplate "template: unclosed action")) as Hrun
    by (vm_compute; reflexivity).
  split; [exact Hrun|]. split; [vm_compute; reflexivity|].
  exact (create_failure_classification (Ext := ext) reqBadTemplate "m" None
           baseLayers [] _ (start baseStore) _ (run_eta _ _ Hrun)).
Defined.

Lemma quantized_source_is_reported_without_status_witness :
  quantizationRequested reqQuantize = true
  ∧ existsb alreadyQuantized baseLayers = true
  ∧ CreateHandler_create (Ext := ext) reqQuantize "m" None baseLayers []
      (start baseStore)
    = (Return (),
       @mkState ext baseStore
         (trace (start baseStore)
          ++ [Sent (ErrorMsg
                      "quantization is only supported for F16 and F32 models"
                      None)])).
Proof.
  split; [reflexivity|]. split; [reflexivity|].
  exact (quantized_source_is_reported_without_status (Ext := ext) reqQuantize "m"
           None baseLayers (start baseStore) eq_refl eq_refl).
Defined.

Lemma success_without_pruning_witness :
  (createModel reqFromBase "m" baseLayers (start baseStore)).1 = Return ()
  ∧ @ParseNamedManifest ext "m" baseStore = None
  ∧ CreateHandler_create (Ext := ext) reqFromBase "m" None baseLayers []
      (start baseStore)
    = (Return (),
       mkState
         (world (createModel reqFromBase "m" baseLayers (start baseStore)).2)
         (trace (createModel reqFromBase "m" baseLayers (start baseStore)).2
          ++ [Sent (Progress "success")])).
Proof.
  assert ((createModel reqFromBase "m" baseLayers (start baseStore)).1 = Return ())
    as Hrun by (vm_compute; reflexivity).
  split; [exact Hrun|]. split; [reflexivity|].
  exact (success_without_pruning (Ext := ext) reqFromBase "m" None baseLayers []
           (start baseStore) _ (run_eta _ _ Hrun) (or_intror eq_refl)).
Defined.

Lemma gguf_file_request_never_finishes_witness :
  From reqGGUFFile = ""
  ∧ Files reqGGUFFile = Some [("model.gguf", digestOf "GGUFQ4_0")]
  ∧ @os_Open ext (blobsDir +:+ digestOf "GGUFQ4_0") baseStore
    = Ok (digestOf "GGUFQ4_0")
  ∧ @detectContentType ext
      (@File_Section ext (digestOf "GGUFQ4_0") 0 512 baseStore) = Ok "gguf"
  ∧ @File_Stat_Size ext (digestOf "GGUFQ4_0") baseStore = Ok 8
  ∧ @NewLayerFromLayer ext (digestOf "GGUFQ4_0") mtModel
      (blobsDir +:+ digestOf "GGUFQ4_0") baseStore
    = (baseStore, Ok (reused "GGUFQ4_0" mtModel))
  ∧ ∀ fuel,
      (CreateHandler_go (Ext := ext) fuel reqGGUFFile "m" (start baseStore)).1
      = Diverge
      ∧ sent (trace (CreateHandler_go (Ext := ext) fuel reqGGUFFile "m"
                       (start baseStore)).2)
        = sent (trace (start baseStore)) ++ [Progress "parsing GGUF"].
Proof.
  assert (@os_Open ext (blobsDir +:+ digestOf "GGUFQ4_0") baseStore
          = Ok (digestOf "GGUFQ4_0")) as Hopen by (vm_compute; reflexivity).
  assert (@detectContentType ext
            (@File_Section ext (digestOf "GGUFQ4_0") 0 512 baseStore) = Ok "gguf")
    as Hct by (vm_compute; reflexivity).
  assert (@File_Stat_Size ext (digestOf "GGUFQ4_0") baseStore = Ok 8) as Hstat
    by (vm_compute; reflexivity).
  assert (@NewLayerFromLayer ext (digestOf "GGUFQ4_0") mtModel
            (blobsDir +:+ digestOf "GGUFQ4_0") baseStore
          = (baseStore, Ok (reused "GGUFQ4_0" mtModel))) as Hnew
    by (vm_compute; reflexivity).
  split; [reflexivity|]. split; [reflexivity|]. split; [exact Hopen|].
  split; [exact Hct|]. split; [exact Hstat|]. split; [exact Hnew|].
  exact (gguf_file_request_never_finishes (Ext := ext) reqGGUFFile "m"
           "model.gguf" (digestOf "GGUFQ4_0") (blobsDir +:+ digestOf "GGUFQ4_0")
           (digestOf "GGUFQ4_0") 8 (reused "GGUFQ4_0" mtModel) (start baseStore)
           eq_refl eq_refl eq_refl eq_refl eq_refl Hopen Hct Hstat eq_refl
           ltac:(discriminate) ltac:(discriminate) Hnew).
Defined.

Lemma setMessages_replaces_or_preserves_witness :
  [mkMessage "user" "hello"] ≠ []
  ∧ (setMessages (Ext := ext) [modelLayer; messagesLayer]
       [mkMessage "user" "hello"] (start richStore)).1
    = Return [modelLayer; created "user:hello;" mtMessages]
  ∧ ∃ b layer (t : list (@Effect ext)),
      @json_encode_messages ext [mkMessage "user" "hello"] = Ok b
      ∧ [modelLayer; created "user:hello;" mtMessages]
        = others mtMessages [modelLayer; messagesLayer] ++ [layer]
      ∧ trace (setMessages (Ext := ext) [modelLayer; messagesLayer]
                 [mkMessage "user" "hello"] (start richStore)).2
        = trace (start richStore) ++ t ++ [Created b mtMessages layer]
      ∧ removed t = those mtMessages [modelLayer; messagesLayer]
      ∧ Forall removalEffect t.
Proof.
  assert ((setMessages (Ext := ext) [modelLayer; messagesLayer]
             [mkMessage "user" "hello"] (start richStore)).1
          = Return [modelLayer; created "user:hello;" mtMessages]) as Hrun
    by (vm_compute; reflexivity).
  split; [discriminate|]. split; [exact Hrun|].
  exact (proj2 (setMessages_replaces_or_preserves (Ext := ext)
                  [modelLayer; messagesLayer] [mkMessage "user" "hello"]
                  (start richStore))
           ltac:(discriminate) _ _ (run_eta _ _ Hrun)).
Defined.

End MoreRuns.
